(** * battlesnake-manager: instance lifecycle and deployment coordinator

    A shallow embedding of the Go sources of the manager daemon, and proofs
    about them.

    The source tree holds two revisions of three files.  The later revision
    has the wait for the runtime's socket, the deploy at start up, the build
    lock with its queue flag and the checks on the pushed ref; it is the one
    embedded here under the names of the sources:

    - [docker/cache.go]: the instance state cache ([Module Docker]);
    - [docker/init.go], later revision (the file [unnamed/part_004]): the
      runtime client ([Module Docker]);
    - [main.go], later revision ([unnamed/part_000]): the idle scheduler
      ([Module Main]);
    - [api/github.go], later revision ([unnamed/part_003]): the webhook and
      the deploy pipeline ([Module Api], [Module Coordinator]);
    - [api/battlesnake.go] ([unnamed/part_002]): the activation step of the
      proxy ([Module Api]).

    Of the earlier revision ([docker/init.go], [api/github.go] and
    [unnamed/part_001] in the tree) the functions that differ on a point
    proved below are embedded beside the later ones, with the suffix [_r1].

    Go's package variables are the fields of one [World] threaded through a
    state monad.  What the daemon does to its surroundings (the runtime's
    control socket, the processes it starts, the scratch directory, the
    clock) is a call to an oracle of class [Runtime]; every such call but a
    reading of the clock is appended to the world's [trace].  Writes to
    standard output are left out. *)

From Stdlib Require Import ZArith Lia List Bool Ascii String.
From stdpp Require Import base option gmap strings pretty list fin_maps.

Local Open Scope string_scope.
Local Open Scope Z_scope.

(** ** Go's [time] package: instants and durations *)

Module GoTime.

(** A [time.Duration] is an [int64] count of nanoseconds. *)
Abbreviation Duration := Z (only parsing).
(** A [time.Time] is read as the count of nanoseconds since the zero Time
    (1 January of year 1, UTC), which [time.Time{}] denotes. *)
Abbreviation Time := Z (only parsing).

Definition minDuration : Duration := - 2 ^ 63.
Definition maxDuration : Duration := 2 ^ 63 - 1.

Definition Nanosecond : Duration := 1.
Definition Millisecond : Duration := 1000000.
Definition Second : Duration := 1000000000.
Definition Minute : Duration := 60 * Second.
Definition Hour : Duration := 60 * Minute.

Definition zeroTime : Time := 0.

(** [int64] arithmetic wraps around. *)
Definition wrap64 (z : Z) : Z := (z + 2 ^ 63) mod 2 ^ 64 - 2 ^ 63.

(** [a - b] on two durations. *)
Definition dsub (a b : Duration) : Duration := wrap64 (a - b).

(** [t.Sub(u)]: the difference, or the largest (smallest) duration when it
    does not fit. *)
Definition Sub (t u : Time) : Duration :=
  if maxDuration <? t - u then maxDuration
  else if t - u <? minDuration then minDuration
  else t - u.

(** [t.Add(d)] and [t.After(u)]. *)
Definition Add (t : Time) (d : Duration) : Time := t + d.
Definition After (t u : Time) : bool := u <? t.

(** The built-in [min] on durations. *)
Definition min (a b : Duration) : Duration := Z.min a b.

End GoTime.

(** ** Go's [strings], [bytes] and [encoding/hex] functions the sources call *)

Module GoStrings.

(** [strings.Split(s, sep)] and [bytes.Split] for a separator of one byte:
    the pieces between the separators, the empty ones included. *)
Fixpoint Split (s : string) (sep : ascii) : list string :=
  match s with
  | EmptyString => [EmptyString]
  | String c rest =>
      if Ascii.eqb c sep then EmptyString :: Split rest sep
      else match Split rest sep with
           | [] => [String c EmptyString]
           | p :: ps => String c p :: ps
           end
  end.

(** [strings.SplitN(s, sep, 2)]: at most two pieces, cut at the first
    separator. *)
Fixpoint SplitN2 (s : string) (sep : ascii) : list string :=
  match s with
  | EmptyString => [EmptyString]
  | String c rest =>
      if Ascii.eqb c sep then [EmptyString; rest]
      else match SplitN2 rest sep with
           | [] => [String c EmptyString]
           | p :: ps => String c p :: ps
           end
  end.

(** [strings.HasPrefix(s, prefix)]. *)
Definition HasPrefix (s pre : string) : bool := String.prefix pre s.

(** [strings.ReplaceAll(s, old, new)] for [old] and [new] of one byte. *)
Fixpoint ReplaceAll (s : string) (old new : ascii) : string :=
  match s with
  | EmptyString => EmptyString
  | String c rest =>
      String (if Ascii.eqb c old then new else c) (ReplaceAll rest old new)
  end.

(** [slices.Contains]. *)
Definition Contains (l : list string) (x : string) : bool :=
  existsb (String.eqb x) l.

Definition hexVal (c : ascii) : option N :=
  let n := N_of_ascii c in
  if ((48 <=? n) && (n <=? 57))%N then Some (n - 48)%N
  else if ((97 <=? n) && (n <=? 102))%N then Some (n - 87)%N
  else if ((65 <=? n) && (n <=? 70))%N then Some (n - 55)%N
  else None.

End GoStrings.


(** ** The daemon's globals, its surroundings and the monad of its functions *)

Module Daemon.
Import GoTime.

(** The errors the sources tell apart: the two sentinel values of
    [docker/init.go], [fmt.Errorf("Returned Status Code %v", code)], and any
    other error value (of the transport, a decoder, a process, the file
    system), kept by its message. *)
Inductive error :=
| ErrorNotRegistered
| ErrorDoesNotExist
| ErrorStatus (code : Z)
| ErrorOther (msg : string).

(** [docker/cache.go], [type ContainerState]; a nil pointer is [None]. *)
Record ContainerState := mkContainerState {
  Running : bool;
  Paused : bool;
  LastUsed : option Time;
  IPAddress : string;
  LastUpdate : option Time
}.

(** [api/github.go], [type buildConfigT]; the mutex is its locked bit. *)
Record buildConfigT := mkBuildConfig {
  Secret : string;
  BuildingMutex : bool;
  Queued : bool
}.

(** What a call of the daemon did to its surroundings. *)
Inductive Event :=
| EvHttp (method url : string)     (* client.Do(req) on the runtime's socket *)
| EvStart (argv : list string)     (* cmd.Start() of exec.Command(argv...) *)
| EvMkdirTemp (pattern : string)   (* os.MkdirTemp("", pattern) *)
| EvRemoveAll (path : string)      (* os.RemoveAll(path) *)
| EvGo (repoName : string).        (* go deployApplication(repoName) *)

(** An answer of the runtime's control socket: the status code and the body. *)
Record Response := mkResponse { StatusCode : Z; Body : string }.

(** The surroundings: each oracle answers a call from the state [Env] of the
    outside world and moves that state on.  [rangeOrder] is the order in which
    a [range] loop walks the cache, which Go leaves open. *)
Class Runtime (Env : Type) := {
  timeNow : Env -> Time * Env;
  clientDo : string -> string -> Env -> (error + Response) * Env;
  cmdStdoutPipe : list string -> Env -> option error * Env;
  cmdStart : list string -> Env -> option error * Env;
  cmdWait : list string -> Env -> option error * Env;
  readAll : list string -> Env -> (error + string) * Env;
  osMkdirTemp : string -> Env -> (error + string) * Env;
  osRemoveAll : string -> Env -> option error * Env;
  rangeOrder : gmap string ContainerState -> Env ->
               list (string * ContainerState) * Env;
  rangeOrder_perm : forall m e, Permutation (rangeOrder m e).1 (map_to_list m)
}.

(** [pushRequest] and [repository] of [api/github.go]. *)
Record repository := mkRepository {
  Private : bool;
  FullName : string;
  DefaultBranch : string
}.
Record pushRequest := mkPushRequest { Ref : string; Repository : repository }.

(** [ContainerStateJson] of [docker/init.go]; the [Networks] map is kept as
    the list of its entries in the order a [range] over it yields them. *)
Record ContainerStateJson := mkContainerStateJson {
  State_Running : bool;
  State_Paused : bool;
  NetworkSettings_IPAddress : string;
  NetworkSettings_Networks : list (string * string)
}.

Inductive HashAlg := SHA1 | SHA256.

(** The pure library functions the sources call and this development does not
    define: the JSON decoders at the three types they are used at, and
    [hmac.New(h, key)] followed by [Write(payload)] and [Sum(nil)]. *)
Class Codec := {
  decodeContainerState : string -> error + ContainerStateJson;
  unmarshalPushRequest : string -> error + pushRequest;
  unmarshalImageInfo : string -> error + string;
  hmacSum : HashAlg -> string -> string -> string
}.

Record World (Env : Type) := mkWorld {
  containerStates : gmap string ContainerState;
  buildConfig : gmap string buildConfigT;
  trace : list Event;
  env : Env
}.
Arguments mkWorld {Env}.
Arguments containerStates {Env}.
Arguments buildConfig {Env}.
Arguments trace {Env}.
Arguments env {Env}.

(** A function of the daemon: it reads and writes the world and returns. *)
Definition M (Env A : Type) : Type := World Env -> A * World Env.

Definition ret {Env A} (a : A) : M Env A := fun w => (a, w).
Definition bind {Env A B} (m : M Env A) (k : A -> M Env B) : M Env B :=
  fun w => let (a, w') := m w in k a w'.

(** An oracle call that leaves an event in the trace, and one that does not. *)
Definition call {Env A} (ev : Event) (f : Env -> A * Env) : M Env A :=
  fun w => let (a, e) := f (env w) in
           (a, mkWorld (containerStates w) (buildConfig w) (trace w ++ [ev]) e).
Definition ask {Env A} (f : Env -> A * Env) : M Env A :=
  fun w => let (a, e) := f (env w) in
           (a, mkWorld (containerStates w) (buildConfig w) (trace w) e).

Definition getStates {Env} : M Env (gmap string ContainerState) :=
  fun w => (containerStates w, w).
Definition putStates {Env} (m : gmap string ContainerState) : M Env unit :=
  fun w => (tt, mkWorld m (buildConfig w) (trace w) (env w)).
Definition getConfig {Env} : M Env (gmap string buildConfigT) :=
  fun w => (buildConfig w, w).
Definition putConfig {Env} (m : gmap string buildConfigT) : M Env unit :=
  fun w => (tt, mkWorld (containerStates w) m (trace w) (env w)).

(** [for _, x := range l { body }]: the body works on the variables [S] it
    captures and returns whether the loop goes on ([false] is a [break], or
    the [return] of a visitor that stops the iteration). *)
Fixpoint forRange {Env A S} (l : list A) (body : A -> S -> M Env (bool * S)) (s : S)
  : M Env S :=
  match l with
  | [] => ret s
  | x :: rest =>
      bind (body x s) (fun r => if r.1 then forRange rest body r.2 else ret r.2)
  end.

End Daemon.

Declare Scope go_scope.
Delimit Scope go_scope with go.
Notation "'let*' x ':=' m 'in' k" := (Daemon.bind m (fun x => k))
  (at level 10, x name, m at level 100, k at level 200) : go_scope.
Notation "'let*' ' pat ':=' m 'in' k" := (Daemon.bind m (fun x => match x with pat => k end))
  (at level 10, pat pattern, m at level 100, k at level 200) : go_scope.
Notation "m1 ';;' m2" := (Daemon.bind m1 (fun _ => m2))
  (at level 100, m2 at level 200, right associativity) : go_scope.

(** ** Package [docker]: the instance state cache and the runtime client

    Every function of [docker/cache.go] takes the cache's lock for its whole
    body, so each is one step on the world. *)

Module Docker.
Import GoTime GoStrings Daemon.
Local Open Scope go_scope.

Section WithRuntime.
Context {Env : Type} {RT : Runtime Env} {CD : Codec}.

(** *** [docker/cache.go] *)

(** [ContainerState{}]. *)
Definition zeroState : ContainerState := mkContainerState false false None "" None.

Definition isRegisteredUnsafe (name : string) : M Env bool :=
  let* states := getStates in
  ret (match states !! name with Some _ => true | None => false end).

Definition IsRegistered (name : string) : M Env bool :=
  let* states := getStates in
  ret (match states !! name with Some _ => true | None => false end).

Definition GetState (name : string) : M Env (ContainerState * option error) :=
  let* states := getStates in
  match states !! name with
  | None => ret (zeroState, Some ErrorNotRegistered)
  | Some state => ret (state, None)
  end.

(** The visitor is a closure; [S] holds the variables it captures. *)
Definition IterContainers {S} (yield : string -> ContainerState -> S -> M Env (bool * S))
  (s : S) : M Env S :=
  let* states := getStates in
  let* entries := ask (rangeOrder states) in
  forRange entries (fun kv => yield kv.1 kv.2) s.

Definition IsStale (name : string) : M Env bool :=
  let* states := getStates in
  match states !! name with
  | None => ret true
  | Some container =>
      match LastUpdate container with
      | None => ret true
      | Some lastUpdate =>
          let* now := ask timeNow in
          ret (After now (Add lastUpdate (60 * Second)))
      end
  end.

Definition RegisterContainer (name : string) : M Env unit :=
  let* registered := isRegisteredUnsafe name in
  if negb registered then
    let* states := getStates in
    putStates (<[name := zeroState]> states)
  else ret tt.

Definition updateState (name : string) (running paused : bool) (ip : string)
  : M Env (option error) :=
  let* states := getStates in
  match states !! name with
  | None => ret (Some ErrorNotRegistered)
  | Some state =>
      let* t := ask timeNow in
      putStates (<[name := mkContainerState running paused (LastUsed state) ip (Some t)]> states);;
      ret None
  end.

Definition updateRunning (name : string) (running paused : bool) : M Env (option error) :=
  let* states := getStates in
  match states !! name with
  | None => ret (Some ErrorNotRegistered)
  | Some state =>
      let* t := ask timeNow in
      putStates (<[name := mkContainerState running paused (LastUsed state)
                                            (IPAddress state) (Some t)]> states);;
      ret None
  end.

Definition updatePaused (name : string) (paused : bool) : M Env (option error) :=
  let* states := getStates in
  match states !! name with
  | None => ret (Some ErrorNotRegistered)
  | Some state =>
      let* t := ask timeNow in
      putStates (<[name := mkContainerState (Running state) paused (LastUsed state)
                                            (IPAddress state) (Some t)]> states);;
      ret None
  end.

Definition UpdateUsed (name : string) : M Env (option error) :=
  let* states := getStates in
  match states !! name with
  | None => ret (Some ErrorNotRegistered)
  | Some state =>
      let* t := ask timeNow in
      putStates (<[name := mkContainerState (Running state) (Paused state) (Some t)
                                            (IPAddress state) (LastUpdate state)]> states);;
      ret None
  end.

(** *** [docker/init.go], later revision *)

Definition RepoNameToContainerName (repoName : string) : string :=
  "bs-" ++ ReplaceAll repoName "/"%char "-"%char.

Definition dockerExec (method url : string) : M Env (error + Response) :=
  call (EvHttp method url) (clientDo method url).

Definition dockerExecJson (method url : string) : M Env (error + ContainerStateJson) :=
  let* r := dockerExec method url in
  match r with
  | inl err => ret (inl err)
  | inr resp =>
      if StatusCode resp =? 404 then ret (inl ErrorDoesNotExist)
      else if negb (StatusCode resp =? 200) then ret (inl (ErrorStatus (StatusCode resp)))
      else ret (decodeContainerState (Body resp))
  end.

Definition dockerExecCmd (container action : string) : M Env (option error) :=
  let* r := dockerExec "POST" ("http://localhost/containers/" ++ container ++ "/" ++ action) in
  match r with
  | inl err => ret (Some err)
  | inr resp =>
      if (StatusCode resp =? 204) || (StatusCode resp =? 304) then ret None
      else if StatusCode resp =? 404 then ret (Some ErrorDoesNotExist)
      else ret (Some (ErrorStatus (StatusCode resp)))
  end.

(** The loop of [CheckContainer] over the networks: the first address that is
    not empty. *)
Fixpoint firstAddress (networks : list (string * string)) : string :=
  match networks with
  | [] => ""
  | (_, addr) :: rest => if negb (String.eqb addr "") then addr else firstAddress rest
  end.

Definition CheckContainer (name : string) : M Env (bool * option error) :=
  let* registered := IsRegistered name in
  if negb registered then ret (false, Some ErrorNotRegistered)
  else
    let* r := dockerExecJson "GET" ("http://localhost/containers/" ++ name ++ "/json") in
    match r with
    | inl err => ret (false, Some err)
    | inr result =>
        let ip := NetworkSettings_IPAddress result in
        let ip := if String.eqb ip "" then firstAddress (NetworkSettings_Networks result)
                  else ip in
        let* err := updateState name (State_Running result) (State_Paused result) ip in
        match err with
        | Some e => ret (false, Some e)
        | None => ret (State_Running result && negb (State_Paused result), None)
        end
    end.

Definition StartContainer (name : string) : M Env (option error) :=
  let* registered := IsRegistered name in
  if negb registered then ret (Some ErrorNotRegistered)
  else
    let* err := dockerExecCmd name "start" in
    match err with
    | Some e => ret (Some e)
    | None =>
        (* Force update the ip *)
        let* r := CheckContainer name in
        ret r.2
    end.

(** The earlier revision of [StartContainer] ends in
    [updateRunning(name, true, false)]. *)
Definition StartContainer_r1 (name : string) : M Env (option error) :=
  let* registered := IsRegistered name in
  if negb registered then ret (Some ErrorNotRegistered)
  else
    let* err := dockerExecCmd name "start" in
    match err with
    | Some e => ret (Some e)
    | None => updateRunning name true false
    end.

Definition StopContainer (name : string) : M Env (option error) :=
  let* registered := IsRegistered name in
  if negb registered then ret (Some ErrorNotRegistered)
  else
    let* err := dockerExecCmd name "stop" in
    match err with
    | Some e => ret (Some e)
    | None => updateRunning name false false
    end.

Definition PauseContainer (name : string) : M Env (option error) :=
  let* registered := IsRegistered name in
  if negb registered then ret (Some ErrorNotRegistered)
  else
    let* err := dockerExecCmd name "pause" in
    match err with
    | Some e => ret (Some e)
    | None => updatePaused name true
    end.

Definition UnpauseContainer (name : string) : M Env (option error) :=
  let* registered := IsRegistered name in
  if negb registered then ret (Some ErrorNotRegistered)
  else
    let* err := dockerExecCmd name "unpause" in
    match err with
    | Some e => ret (Some e)
    | None => updatePaused name false
    end.

Definition EnsureContainerRunning (name : string) : M Env (option error) :=
  let* stale := IsStale name in
  let* err :=
    (if stale then let* r := CheckContainer name in ret r.2 else ret None) in
  match err with
  | Some e => ret (Some e)
  | None =>
      let* '(state, err) := GetState name in
      match err with
      | Some e => ret (Some e)
      | None =>
          if Running state && Paused state then UnpauseContainer name
          else if negb (Running state) then StartContainer name
          else ret None
      end
  end.

End WithRuntime.
End Docker.

(** ** Package [main]: the idle scheduler ([main.go], later revision) *)

Module Main.
Import GoTime GoStrings Daemon.
Local Open Scope go_scope.

(** The locals of [stopOldContainersJob] its visitor captures. *)
Record JobVars := mkJobVars {
  toStop : list string;
  toPause : list string;
  nextRunner : Duration
}.

Definition PAUSE_DELAY : Duration := Minute.
Definition STOP_DELAY : Duration := Hour.

(** The visitor's branches on [container.Running] and [container.Paused],
    given the idle time it computed first. *)
Definition account (name : string) (container : ContainerState) (timeSince : Duration)
  (v : JobVars) : JobVars :=
  if Running container then
    if negb (Paused container) then
      if timeSince <? PAUSE_DELAY then
        mkJobVars (toStop v) (toPause v) (GoTime.min (nextRunner v) (dsub PAUSE_DELAY timeSince))
      else
        mkJobVars (toStop v) (toPause v ++ [name]) (nextRunner v)
    else
      if timeSince <? STOP_DELAY then
        mkJobVars (toStop v) (toPause v) (GoTime.min (nextRunner v) (dsub STOP_DELAY timeSince))
      else
        mkJobVars (toStop v ++ [name]) (toPause v) (nextRunner v)
  else v.

Section WithRuntime.
Context {Env : Type} {RT : Runtime Env} {CD : Codec}.

(** The visitor's first lines: the time since the instance was last used. *)
Definition timeSince (container : ContainerState) : M Env Duration :=
  let* now := ask timeNow in
  let timeSince := Sub now zeroTime in
  match LastUsed container with
  | Some lastUsed =>
      let* now := ask timeNow in
      ret (Sub now lastUsed)
  | None => ret timeSince
  end.

Definition visitor (name : string) (container : ContainerState) (v : JobVars)
  : M Env (bool * JobVars) :=
  let* idle := timeSince container in
  ret (true, account name container idle v).

Definition stopAll (names : list string) : M Env unit :=
  forRange names (fun name _ =>
    let* err := Docker.StopContainer name in
    ret (true, tt)) tt.

Definition pauseAll (names : list string) : M Env unit :=
  forRange names (fun name _ =>
    let* err := Docker.PauseContainer name in
    ret (true, tt)) tt.

Definition stopOldContainersJob : M Env Duration :=
  let* v := Docker.IterContainers visitor (mkJobVars [] [] Minute) in
  stopAll (toStop v);;
  pauseAll (toPause v);;
  ret (nextRunner v).

(** The earlier revision: the idle time starts at [0 * time.Second] and is
    [container.LastUsed.Sub(time.Now())]; [nextRunner] starts at [time.Hour]. *)
Definition timeSince_r1 (container : ContainerState) : M Env Duration :=
  let timeSince := wrap64 (0 * Second) in
  match LastUsed container with
  | Some lastUsed =>
      let* now := ask timeNow in
      ret (Sub lastUsed now)
  | None => ret timeSince
  end.

Definition visitor_r1 (name : string) (container : ContainerState) (v : JobVars)
  : M Env (bool * JobVars) :=
  let* idle := timeSince_r1 container in
  ret (true, account name container idle v).

Definition stopOldContainersJob_r1 : M Env Duration :=
  let* v := Docker.IterContainers visitor_r1 (mkJobVars [] [] Hour) in
  stopAll (toStop v);;
  pauseAll (toPause v);;
  ret (nextRunner v).

End WithRuntime.
End Main.

(** ** Package [api]: the webhook and the deploy pipeline ([api/github.go],
    later revision) and the activation step ([api/battlesnake.go]) *)

Module Api.
Import GoTime GoStrings Daemon.
Local Open Scope go_scope.

Definition nl : string := String (ascii_of_N 10) "".

(** [err.Error()]. *)
Definition errorString (e : error) : string :=
  match e with
  | ErrorNotRegistered => "Container not registered"
  | ErrorDoesNotExist => "Container does not exist"
  | ErrorStatus code => "Returned Status Code " ++ pretty code
  | ErrorOther msg => msg
  end.

(** [hex.DecodeString] with its two errors; the message of an invalid byte
    names the byte (Go prints it as a code point, [%#U]). *)
Fixpoint hexDecodeString (s : string) : error + string :=
  match s with
  | EmptyString => inr EmptyString
  | String a EmptyString =>
      match hexVal a with
      | None => inl (ErrorOther ("encoding/hex: invalid byte: " ++ String a ""))
      | Some _ => inl (ErrorOther "encoding/hex: odd length hex string")
      end
  | String a (String b rest) =>
      match hexVal a, hexVal b with
      | None, _ => inl (ErrorOther ("encoding/hex: invalid byte: " ++ String a ""))
      | _, None => inl (ErrorOther ("encoding/hex: invalid byte: " ++ String b ""))
      | Some h, Some l =>
          match hexDecodeString rest with
          | inl e => inl e
          | inr tl => inr (String (ascii_of_N (16 * h + l)) tl)
          end
      end
  end.

(** What the handler wrote: [w.WriteHeader(status)] and the [w.Write]s. *)
Record Reply := mkReply { Status : Z; Written : string }.

(** The request as the handler reads it: five headers and the result of
    [io.ReadAll(r.Body)]. *)
Record Request := mkRequest {
  XGitHubEvent : string;
  XHubSignature : string;
  XHubSignature256 : string;
  ContentType : string;
  UserAgent : string;
  ReadBody : error + string
}.

(** [sync.Mutex]: [TryLock] and [Unlock] on the locked bit of a config. *)
Definition TryLock (conf : buildConfigT) : bool * buildConfigT :=
  if BuildingMutex conf then (false, conf)
  else (true, mkBuildConfig (Secret conf) true (Queued conf)).
Definition Unlock (conf : buildConfigT) : buildConfigT :=
  mkBuildConfig (Secret conf) false (Queued conf).
Definition setQueued (q : bool) (conf : buildConfigT) : buildConfigT :=
  mkBuildConfig (Secret conf) (BuildingMutex conf) q.

(** Where a run of the deploy pipeline ended: the message [errorLogger] got
    before the [return] taken, or the end of the function. *)
Inductive Outcome :=
| CouldNotGetContainerState
| CouldNotCreateStdoutPipe
| CouldNotGetListOfImages
| CouldNotCreateTempdir
| CouldNotCloneRepo
| CouldNotBuildImage
| CouldNotStopContainer
| CouldNotDeleteContainer
| CouldNotCreateContainer
| ContainerWasNotCreated
| CouldNotGetTheContainerState
| Deployed.

Section WithRuntime.
Context {Env : Type} {RT : Runtime Env} {CD : Codec}.

Definition RegisterSecret (repoName secret : string) : M Env unit :=
  let* confs := getConfig in
  putConfig (<[repoName := mkBuildConfig secret false false]> confs).

Definition checkSecret (payload secret sig : string) : option error :=
  match SplitN2 sig "="%char with
  | [sigType; digest] =>
      match (if String.eqb sigType "sha1" then Some SHA1
             else if String.eqb sigType "sha256" then Some SHA256
             else None) with
      | None => Some (ErrorOther "Unsupported hash algorithm")
      | Some hsh =>
          match hexDecodeString digest with
          | inl err => Some err
          | inr sum =>
              if negb (String.eqb (hmacSum hsh secret payload) sum)
              then Some (ErrorOther "Signature invalid")
              else None
          end
      end
  | _ => Some (ErrorOther "Bad Signature")
  end.

Definition ignoring (what branch : string) : Reply :=
  mkReply 200 (what ++ nl ++ "Only deploying from branch " ++ branch).

(** [githubWebhookHandler] past the signature check (lines 142 to 209 of the
    later revision): the event, the ref and the build lock.  [confs] is the
    map [buildConfig] and [conf] the entry of the repository in it. *)
Definition afterSignature (event : string) (request : pushRequest)
  (confs : gmap string buildConfigT) (conf : buildConfigT) : M Env Reply :=
  let repoName := FullName (Repository request) in
  if String.eqb event "ping" then ret (mkReply 200 "pong")
  else if negb (String.eqb event "push") then ret (mkReply 403 "Action Forbidden")
  else if Private (Repository request) then ret (mkReply 500 "Cannot Access Private Repos")
  else
  let branch := DefaultBranch (Repository request) in
  match Split (Ref request) "/"%char with
  | [ref0; ref1; ref2] =>
      if negb (String.eqb ref0 "refs") then
        ret (ignoring ("Ignoring push to " ++ Ref request) branch)
      else if String.eqb ref1 "tags" then
        ret (ignoring ("Ignoring push to tag " ++ ref2) branch)
      else if negb (String.eqb ref1 "heads") then
        ret (ignoring ("Ignoring push to " ++ Ref request) branch)
      else if negb (String.eqb ref2 branch) then
        ret (ignoring ("Ignoring push to branch " ++ ref2) branch)
      else
        let (locked, conf') := TryLock conf in
        if negb locked then
          putConfig (<[repoName := setQueued true conf]> confs);;
          ret (mkReply 200 ("There is already a job deploying" ++ nl
                            ++ "Adding the build job to the queue"))
        else
          putConfig (<[repoName := conf']> confs);;
          call (EvGo repoName) (fun e => (tt, e));;
          ret (mkReply 200 ("Deploying " ++ repoName ++ "..."))
  | _ => ret (ignoring ("Ignoring push to " ++ Ref request) branch)
  end.

(** [githubWebhookHandler] (later revision). *)
Definition githubWebhookHandler (r : Request) : M Env Reply :=
  let event := XGitHubEvent r in
  let sig := XHubSignature r in
  let sig256 := XHubSignature256 r in
  if negb (HasPrefix (UserAgent r) "GitHub-Hookshot/") then
    ret (mkReply 401 "Access Denied")
  else if negb (String.eqb (ContentType r) "application/json") then
    ret (mkReply 400 "Invalid Content-Type. Only json Supported")
  else
  match ReadBody r with
  | inl _ => ret (mkReply 400 "Invalid Request")
  | inr body =>
  match unmarshalPushRequest body with
  | inl _ => ret (mkReply 400 "Invalid Request")
  | inr request =>
  let repoName := FullName (Repository request) in
  let sig := if negb (String.eqb sig256 "") then sig256 else sig in
  let* confs := getConfig in
  match confs !! repoName with
  | None => ret (mkReply 401 ("Access Denied: " ++ "Not registered"))
  | Some conf =>
  match checkSecret body (Secret conf) sig with
  | Some err => ret (mkReply 401 ("Access Denied: " ++ errorString err))
  | None => afterSignature event request confs conf
  end end end end.

(** The closure [runCmd] of [deployApplication]. *)
Definition runCmd (argv : list string) : M Env bool :=
  let* err := call (EvStart argv) (cmdStart argv) in
  match err with
  | Some _ => ret false
  | None =>
      let* err := ask (cmdWait argv) in
      ret (match err with Some _ => false | None => true end)
  end.

(** The last loop of [deployApplication]: one [docker rmi] for each id of the
    listing taken before the build, the first time the id is seen. *)
Definition pruneImage (image : string) (seenIds : list string) : M Env (bool * list string) :=
  match unmarshalImageInfo image with
  | inl _ => ret (true, seenIds)
  | inr id =>
      if Contains seenIds id then ret (true, seenIds)
      else
        let seenIds := (seenIds ++ [id])%list in
        let* removed := runCmd ["docker"; "rmi"; id] in
        ret (true, seenIds)
  end.

Definition pruneImages (imagesRaw : string) : M Env (list string) :=
  forRange (Split imagesRaw (ascii_of_N 10)) pruneImage [].

(** [deployApplication] from the clone to its last line: what runs between
    the [defer] of [os.RemoveAll(repoDir)] and that deferred call. *)
Definition deploySteps (repoName containerName repoDir imagesRaw : string) (exists_ : bool)
  : M Env Outcome :=
  let* ok := runCmd ["git"; "clone"; "https://github.com/" ++ repoName ++ ".git"; repoDir] in
  if negb ok then ret CouldNotCloneRepo else
  let tag := repoName ++ ":local" in
  let* ok := runCmd ["docker"; "build"; "-t"; repoName; repoDir] in
  if negb ok then ret CouldNotBuildImage else
  let* stopped :=
    (if exists_ then
       let* err := Docker.StopContainer containerName in
       match err with
       | Some _ => ret (Some CouldNotStopContainer)
       | None =>
           let* ok := runCmd ["docker"; "rm"; containerName] in
           if negb ok then ret (Some CouldNotDeleteContainer) else ret None
       end
     else ret None) in
  match stopped with
  | Some out => ret out
  | None =>
  let* ok := runCmd ["docker"; "run"; "-d"; "--name"; containerName; tag] in
  if negb ok then ret CouldNotCreateContainer else
  (* Update the state machine *)
  let* '(_, err) := Docker.CheckContainer containerName in
  match err with
  | Some ErrorDoesNotExist => ret ContainerWasNotCreated
  | Some _ => ret CouldNotGetTheContainerState
  | None =>
      let* seenIds := pruneImages imagesRaw in
      ret Deployed
  end
  end.

(** [deployApplication] past the opening check (from the image listing on):
    [found] says whether the container exists. *)
Definition afterCheck (repoName : string) (found : bool) : M Env Outcome :=
  let containerName := Docker.RepoNameToContainerName repoName in
  let images := ["docker"; "images"; "--format"; "{{ json . }}"; repoName] in
  let* err := ask (cmdStdoutPipe images) in
  match err with
  | Some _ => ret CouldNotCreateStdoutPipe
  | None =>
  let* err := call (EvStart images) (cmdStart images) in
  match err with
  | Some _ => ret CouldNotGetListOfImages
  | None =>
  let* read := ask (readAll images) in
  match read with
  | inl _ => ret CouldNotGetListOfImages
  | inr imagesRaw =>
  let* imageErr := ask (cmdWait images) in
  let pattern := containerName ++ "-*" in
  let* made := call (EvMkdirTemp pattern) (osMkdirTemp pattern) in
  match made with
  | inl _ => ret CouldNotCreateTempdir
  | inr repoDir =>
      let* out := deploySteps repoName containerName repoDir imagesRaw found in
      let* err := call (EvRemoveAll repoDir) (osRemoveAll repoDir) in
      ret out
  end end end end.

(** The body of [deployApplication] below its first [defer]. *)
Definition deployRun (repoName : string) : M Env Outcome :=
  let containerName := Docker.RepoNameToContainerName repoName in
  let* '(_, err) := Docker.CheckContainer containerName in
  match err with
  | None => afterCheck repoName true
  | Some ErrorDoesNotExist => afterCheck repoName false
  | Some _ => ret CouldNotGetContainerState
  end.

(** The first [defer] of [deployApplication]: whether the job runs again. *)
Definition deployDeferred (repoName : string) : M Env bool :=
  let* confs := getConfig in
  match confs !! repoName with
  | None => ret false
  | Some conf =>
      if Queued conf then
        putConfig (<[repoName := setQueued false conf]> confs);;
        ret true
      else
        putConfig (<[repoName := Unlock conf]> confs);;
        ret false
  end.

(** [deployApplication]: the outcomes of its runs, the first one first; [None]
    when [fuel] nested calls were not enough. *)
Fixpoint deployApplication (fuel : nat) (repoName : string) : M Env (option (list Outcome)) :=
  match fuel with
  | O => ret None
  | S fuel =>
      let* confs := getConfig in
      match confs !! repoName with
      | None => ret (Some [])
      | Some _ =>
          let* out := deployRun repoName in
          let* again := deployDeferred repoName in
          if again then
            let* rest := deployApplication fuel repoName in
            ret (option_map (cons out) rest)
          else ret (Some [out])
      end
  end.

(** [api/battlesnake.go], [ensureContainerRunning]: the address and whether
    the instance serves, and what was written on failure. *)
Definition ensureContainerRunning (id : string) : M Env (string * bool * option Reply) :=
  let* err := Docker.EnsureContainerRunning id in
  match err with
  | Some ErrorNotRegistered => ret ("", false, Some (mkReply 404 "404 Battle-Snake Not Found"))
  | Some _ => ret ("", false, Some (mkReply 500 "500 Internal Server Error"))
  | None =>
      (* ignore the error since it can never fail after ensuring the container is running *)
      let* '(state, _) := Docker.GetState id in
      ret (IPAddress state, true, None)
  end.

(** [DeployApplicationPublic]: [conf.BuildingMutex.Lock()] returns once the
    lock is free, so the call does not return while it is held; this is the
    result [None], which is also that of [deployApplication] out of fuel. *)
Definition DeployApplicationPublic (fuel : nat) (repoName : string)
  : M Env (option (list Outcome)) :=
  let* confs := getConfig in
  match confs !! repoName with
  | None => ret (Some [])
  | Some conf =>
      if BuildingMutex conf then ret None
      else
        putConfig (<[repoName := mkBuildConfig (Secret conf) true (Queued conf)]> confs);;
        deployApplication fuel repoName
  end.

End WithRuntime.
End Api.

(** ** Package [api]: the proxy ([api/battlesnake.go]) and the two answers of
    [api/init.go]

    The proxy talks to the instance through [http.DefaultClient], which is not
    the client of the runtime's socket: its calls are oracles of their own
    and leave nothing in the trace. *)

Module Proxy.
Import GoStrings Daemon.
Local Open Scope go_scope.

(** What the proxy reads of a request: the method, the route variable [id]
    and the body it passes on. *)
Record ProxyRequest := mkProxyRequest {
  Method : string;
  VarsId : string;
  RequestBody : string
}.

(** The answer of the instance: the header is kept as the list of its keys
    with their values, in the order a [range] over it yields them. *)
Record UpstreamResponse := mkUpstreamResponse {
  UpStatusCode : Z;
  UpHeader : list (string * list string);
  UpBody : string
}.

(** An [http.ResponseWriter]: the header map as the list of the values
    added, the status once it is written, and the bytes written. *)
Record ResponseWriter := mkResponseWriter {
  Header : list (string * string);
  WroteHeader : option Z;
  Wrote : string
}.

Definition newWriter : ResponseWriter := mkResponseWriter [] None "".

(** [w.Header().Add(k, v)]. *)
Definition HeaderAdd (k v : string) (w : ResponseWriter) : ResponseWriter :=
  mkResponseWriter (Header w ++ [(k, v)]) (WroteHeader w) (Wrote w).

(** [w.WriteHeader(code)]: a second call changes nothing. *)
Definition WriteHeader (code : Z) (w : ResponseWriter) : ResponseWriter :=
  match WroteHeader w with
  | Some _ => w
  | None => mkResponseWriter (Header w) (Some code) (Wrote w)
  end.

(** [w.Write(data)]: it writes the status 200 first when none was written. *)
Definition Write (data : string) (w : ResponseWriter) : ResponseWriter :=
  let w := WriteHeader 200 w in
  mkResponseWriter (Header w) (WroteHeader w) (Wrote w ++ data).

(** [api/init.go]. *)
Definition logError (w : ResponseWriter) : ResponseWriter :=
  Write "500 Internal Server Error" (WriteHeader 500 w).

Definition notFound (w : ResponseWriter) : ResponseWriter :=
  Write "404 Battle-Snake Not Found" (WriteHeader 404 w).

(** What [Api.ensureContainerRunning] reports as written, on the writer. *)
Definition written (rp : option Api.Reply) (w : ResponseWriter) : ResponseWriter :=
  match rp with
  | Some rp => Write (Api.Written rp) (WriteHeader (Api.Status rp) w)
  | None => w
  end.

(** The two loops over [resp.Header]. *)
Definition copyHeader (h : list (string * list string)) (w : ResponseWriter) : ResponseWriter :=
  fold_left (fun w kvs => fold_left (fun w v => HeaderAdd kvs.1 v w) kvs.2 w) h w.

(** The surroundings of the proxy: [http.NewRequest] (it checks the method
    and parses the URL), [http.DefaultClient.Do], and [io.Copy] from the body
    of the answer to the writer, which copies all of it or fails after the
    bytes it gives. *)
Class Upstream (Env : Type) := {
  httpNewRequest : string -> string -> option error;
  defaultClientDo : string -> string -> string -> Env -> (error + UpstreamResponse) * Env;
  ioCopy : string -> Env -> option (string * error) * Env
}.

Section WithRuntime.
Context {Env : Type} {RT : Runtime Env} {CD : Codec} {UP : Upstream Env}.

(** [battleSnakePoxyHandler(path)]; the goroutine of its last lines runs
    before it returns. *)
Definition battleSnakePoxyHandler (path : string) (r : ProxyRequest) : M Env ResponseWriter :=
  let w := newWriter in
  let id := "bs-" ++ VarsId r in
  let* '(ip, running, wrote) := Api.ensureContainerRunning id in
  let w := written wrote w in
  if negb running then ret w
  else
    (* Proxy the request to the battle snake *)
    let url := "http://" ++ ip ++ path in
    match httpNewRequest (Method r) url with
    | Some _ => ret (logError w)
    | None =>
        let* resp := ask (defaultClientDo (Method r) url (RequestBody r)) in
        match resp with
        | inl _ => ret (logError w)
        | inr resp =>
            (* Respond to the original request with the proxied response *)
            let w := copyHeader (UpHeader resp) w in
            let w := WriteHeader (UpStatusCode resp) w in
            let* copied := ask (ioCopy (UpBody resp)) in
            match copied with
            | Some (sent, _) => ret (logError (Write sent w))
            | None =>
                let w := Write (UpBody resp) w in
                (* Let the docker job know that this battle snake has just been used *)
                let* _ := Docker.UpdateUsed id in
                ret w
            end
        end
    end.

End WithRuntime.
End Proxy.

(** ** Package [main]: the configuration read at start up ([main.go],
    [loadConfig]) *)

Module Config.
Import GoStrings Daemon.
Local Open Scope go_scope.

Record ContainerSetting := mkContainerSetting { Name : string; Secret : string }.

(** [os.ReadFile] and the JSON decoder at the type [[]ContainerSetting]. *)
Class ConfigFile (Env : Type) := {
  osReadFile : string -> Env -> (error + string) * Env;
  decodeSettings : string -> error + list ContainerSetting
}.

Section WithRuntime.
Context {Env : Type} {RT : Runtime Env} {CD : Codec} {CF : ConfigFile Env}.

(** The first loop of [loadConfig]. *)
Definition registerAll (result : list ContainerSetting) : M Env unit :=
  forRange result (fun val _ =>
    Docker.RegisterContainer (Name val);;
    Api.RegisterSecret (Name val) (Secret val);;
    ret (true, tt)) tt.

(** The second loop; it returns the repositories for which it started
    [go api.DeployApplicationPublic], in the order it started them. *)
Definition deployMissing (result : list ContainerSetting) : M Env (list string) :=
  forRange result (fun val started =>
    let containerName := Docker.RepoNameToContainerName (Name val) in
    let* '(_, err) := Docker.CheckContainer containerName in
    match err with
    | Some ErrorDoesNotExist => ret (true, (started ++ [Name val])%list)
    | _ => ret (true, started)
    end) [].

(** [loadConfig] (later revision); its own result is always [nil]. *)
Definition loadConfig : M Env (list string) :=
  let* read := ask (osReadFile "/data/battlesnakes.json") in
  match read with
  | inl _ => ret []
  | inr body =>
      match decodeSettings body with
      | inl _ => ret []
      | inr result =>
          registerAll result;;
          (* Deploy any non-existing repos *)
          deployMissing result
      end
  end.

(** The earlier revision registers and does no more. *)
Definition loadConfig_r1 : M Env unit :=
  let* read := ask (osReadFile "/data/battlesnakes.json") in
  match read with
  | inl _ => ret tt
  | inr body =>
      match decodeSettings body with
      | inl _ => ret tt
      | inr result => registerAll result
      end
  end.

End WithRuntime.
End Config.

(** ** Package [api], earlier revision ([api/github.go]): the webhook

    The earlier revision keeps the secrets in a map of their own, under the
    name of the container, has no build lock, and reads the event from the
    body of the request. *)

Module ApiR1.
Import GoStrings Daemon.
Local Open Scope go_scope.

(** The JSON decoder at the type [action]: the field [action] of the body. *)
Class ActionCodec := {
  unmarshalAction : string -> error + string
}.

Definition fullNameToContainerName (fullName : string) : string :=
  "battlesnake-" ++ ReplaceAll fullName "/"%char "-"%char.

(** The package variable [secrets]; [RegisterSecret] writes it and the
    handler reads it, a missing key as the empty secret. *)
Definition RegisterSecret (id secret : string) (secrets : gmap string string)
  : gmap string string :=
  <[id := secret]> secrets.

Definition secretOf (secrets : gmap string string) (id : string) : string :=
  match secrets !! id with
  | Some secret => secret
  | None => ""
  end.

Section WithRuntime.
Context {Env : Type} {RT : Runtime Env} {CD : Codec} {AC : ActionCodec}.

Definition checkSecret (payload secret sig : string) : option error :=
  match SplitN2 sig "="%char with
  | [sigType; digest] =>
      match (if String.eqb sigType "sha1" then Some SHA1
             else if String.eqb sigType "sha256" then Some SHA256
             else None) with
      | None => Some (ErrorOther "Unsupported hash algorithm")
      | Some hsh =>
          match Api.hexDecodeString digest with
          | inl err => Some err
          | inr sum =>
              if negb (String.eqb (hmacSum hsh secret payload) sum)
              then Some (ErrorOther "hmacs don't equal")
              else None
          end
      end
  | _ => Some (ErrorOther "Bad Signature")
  end.

Definition githubWebhookHandler (secrets : gmap string string) (r : Api.Request)
  : M Env Api.Reply :=
  let sig := Api.XHubSignature r in
  let sig256 := Api.XHubSignature256 r in
  if negb (HasPrefix (Api.UserAgent r) "GitHub-Hookshot/") then
    ret (Api.mkReply 401 "Access Denied")
  else if negb (String.eqb (Api.ContentType r) "application/json") then
    ret (Api.mkReply 400 "Invalid Content-Type. Only json Supported")
  else
  match Api.ReadBody r with
  | inl _ => ret (Api.mkReply 400 "Invalid Request")
  | inr body =>
  match unmarshalAction body with
  | inl _ => ret (Api.mkReply 400 "Invalid Request")
  | inr action =>
  if String.eqb action "ping" then ret (Api.mkReply 200 "pong")
  else if negb (String.eqb action "push") then ret (Api.mkReply 403 "Action Forbidden")
  else
  match unmarshalPushRequest body with
  | inl _ => ret (Api.mkReply 400 "Invalid Request")
  | inr request =>
  let repoName := FullName (Repository request) in
  let sig := if negb (String.eqb sig256 "") then sig256 else sig in
  match checkSecret body (secretOf secrets (fullNameToContainerName repoName)) sig with
  | Some err => ret (Api.mkReply 401 ("Access Denied: " ++ Api.errorString err))
  | None =>
  if Private (Repository request) then ret (Api.mkReply 500 "Cannot Access Private Repos")
  else
    call (EvGo repoName) (fun e => (tt, e));;
    ret (Api.mkReply 200 ("Deploying " ++ repoName ++ "..."))
  end end end end.

End WithRuntime.
End ApiR1.

(** ** The goroutines around one repository's build lock

    [githubWebhookHandler] runs once per request and [deployApplication] in a
    goroutine of its own, so the statements of one call interleave with those
    of another.  For one repository the interleaving is modelled by the steps
    that read or write its [buildConfigT]:

    - a handler reaches [conf.BuildingMutex.TryLock()]; when it gets the lock
      it starts [go deployApplication], otherwise it goes on towards
      [conf.Queued = true];
    - such a handler writes [conf.Queued = true];
    - [DeployApplicationPublic] gets the lock from [Lock()] (it waits while
      the lock is held) and calls [deployApplication];
    - the body of [deployApplication] returns and the deferred function
      reads [conf.Queued]: when set, it clears it and calls
      [deployApplication] again; otherwise it goes on towards [Unlock()];
    - the deferred function calls [conf.BuildingMutex.Unlock()]. *)

Module Coordinator.
Import Daemon.

Record Sys := mkSys {
  conf : buildConfigT;
  inBody : nat;      (* goroutines inside the body of deployApplication *)
  unlocking : nat;   (* deferred functions that read Queued = false, before Unlock *)
  flagging : nat;    (* handlers whose TryLock failed, before conf.Queued = true *)
  runs : nat         (* how often the body of deployApplication was entered *)
}.

Inductive Step :=
| HandlerTryLock
| HandlerSetQueued
| PublicLock
| BodyReturns
| DeferredUnlock.

Definition initial (secret : string) : Sys :=
  mkSys (mkBuildConfig secret false false) 0 0 0 0.

(** One step, or [None] when no goroutine can take it. *)
Definition step (s : Sys) (st : Step) : option Sys :=
  match st with
  | HandlerTryLock =>
      let (locked, conf') := Api.TryLock (conf s) in
      if locked
      then Some (mkSys conf' (S (inBody s)) (unlocking s) (flagging s) (S (runs s)))
      else Some (mkSys (conf s) (inBody s) (unlocking s) (S (flagging s)) (runs s))
  | HandlerSetQueued =>
      match flagging s with
      | O => None
      | S n => Some (mkSys (Api.setQueued true (conf s)) (inBody s) (unlocking s) n (runs s))
      end
  | PublicLock =>
      let (locked, conf') := Api.TryLock (conf s) in
      if locked
      then Some (mkSys conf' (S (inBody s)) (unlocking s) (flagging s) (S (runs s)))
      else None
  | BodyReturns =>
      match inBody s with
      | O => None
      | S n =>
          if Queued (conf s)
          then Some (mkSys (Api.setQueued false (conf s)) (S n) (unlocking s) (flagging s)
                           (S (runs s)))
          else Some (mkSys (conf s) n (S (unlocking s)) (flagging s) (runs s))
      end
  | DeferredUnlock =>
      match unlocking s with
      | O => None
      | S n => Some (mkSys (Api.Unlock (conf s)) (inBody s) n (flagging s) (runs s))
      end
  end.

Fixpoint exec (s : Sys) (sched : list Step) : option Sys :=
  match sched with
  | [] => Some s
  | st :: rest =>
      match step s st with
      | None => None
      | Some s' => exec s' rest
      end
  end.

(** A build is in flight: the lock is held by the one goroutine in the body. *)
Definition building (s : Sys) : bool :=
  BuildingMutex (conf s) && Nat.eqb (inBody s) 1 && Nat.eqb (unlocking s) 0.

(** No build is in flight and the lock is free. *)
Definition idle (s : Sys) : bool :=
  negb (BuildingMutex (conf s)) && Nat.eqb (inBody s) 0 && Nat.eqb (unlocking s) 0.

(** The steps of one whole request that finds the lock held. *)
Definition queuedRequest : list Step := [HandlerTryLock; HandlerSetQueued].

End Coordinator.

(** ** A simulated runtime, for the examples

    [Sim] answers every oracle from a few settings and moves only its clock:
    enough to run the functions above on concrete worlds. *)

Module Sim.
Import GoTime GoStrings Daemon.

Record Env := mkEnv {
  clock : Time;              (* what time.Now() reads next *)
  tick : Duration;           (* how far a reading moves the clock *)
  inspectStatus : Z;         (* the status of GET .../json *)
  inspectBody : string;      (* and its body *)
  postStatus : Z;            (* the status of POST .../<action> *)
  failing : list string;     (* the commands (by verb) whose Wait fails *)
  imagesOut : string         (* the output of docker images *)
}.

(** The verb of a command line: [clone] for git, the word after [docker]. *)
Definition verb (argv : list string) : string :=
  match argv with
  | [] => ""
  | [cmd] => cmd
  | cmd :: sub :: _ => sub
  end.

#[export] Instance runtime : Runtime Env := {|
  timeNow e := (clock e, mkEnv (clock e + tick e) (tick e) (inspectStatus e) (inspectBody e)
                               (postStatus e) (failing e) (imagesOut e));
  clientDo method url e :=
    (if String.eqb method "GET"
     then inr (mkResponse (inspectStatus e) (inspectBody e))
     else inr (mkResponse (postStatus e) ""), e);
  cmdStdoutPipe argv e := (None, e);
  cmdStart argv e := (None, e);
  cmdWait argv e :=
    (if Contains (failing e) (verb argv) then Some (ErrorOther "exit status 1") else None, e);
  readAll argv e := (inr (imagesOut e), e);
  osMkdirTemp pattern e := (inr ("/tmp/" ++ pattern), e);
  osRemoveAll path e := (None, e);
  rangeOrder m e := (map_to_list m, e);
  rangeOrder_perm m e := Permutation_refl _
|}.

Definition mainPush : pushRequest :=
  mkPushRequest "refs/heads/main" (mkRepository false "user/snake" "main").

(** A decoder for a handful of bodies: an inspect answer is the word [up],
    [paused] or [down]; a line of the image listing is the image's id (the
    empty line is no JSON); a webhook body is one letter. *)
#[export] Instance codec : Codec := {|
  decodeContainerState body :=
    if String.eqb body "up"
    then inr (mkContainerStateJson true false "" [("bridge", ""); ("snakes", "172.18.0.2")])
    else if String.eqb body "paused"
    then inr (mkContainerStateJson true true "172.17.0.2" [])
    else if String.eqb body "down"
    then inr (mkContainerStateJson false false "" [])
    else inl (ErrorOther "invalid character");
  unmarshalPushRequest body :=
    if String.eqb body "m" then inr mainPush
    else if String.eqb body "t"
    then inr (mkPushRequest "refs/tags/v1" (mkRepository false "user/snake" "main"))
    else if String.eqb body "f"
    then inr (mkPushRequest "refs/heads/feature" (mkRepository false "user/snake" "main"))
    else if String.eqb body "x"
    then inr (mkPushRequest "refs/heads/feature/x" (mkRepository false "user/snake" "main"))
    else if String.eqb body "v"
    then inr (mkPushRequest "refs/tags/v1" (mkRepository true "user/snake" "main"))
    else inl (ErrorOther "unexpected end of JSON input");
  unmarshalImageInfo line :=
    if String.eqb line "" then inl (ErrorOther "unexpected end of JSON input")
    else inr line;
  hmacSum hsh key payload := key ++ payload
|}.

(** Noon of 1 November 2026, in nanoseconds since the zero Time. *)
Definition noon : Time := 63929131200 * Second.

Definition quiet : Env := mkEnv noon 0 200 "up" 204 [] "".

Definition world (states : gmap string ContainerState)
  (confs : gmap string buildConfigT) (e : Env) : World Env :=
  mkWorld states confs [] e.

End Sim.

(** [Host] adds to [Sim] the configuration file and the instance behind the
    proxy. *)

Module Host.
Import GoTime GoStrings Daemon Proxy Config.

Record Env := mkEnv {
  runtimeEnv : Sim.Env;
  file : error + string;                  (* what os.ReadFile gives *)
  answer : error + UpstreamResponse;      (* what the instance answers *)
  copyFailure : option (string * error)   (* how io.Copy fails, if it does *)
}.

#[local] Existing Instance Sim.runtime.

Definition lift {A} (f : Sim.Env -> A * Sim.Env) (e : Env) : A * Env :=
  ((f (runtimeEnv e)).1, mkEnv (f (runtimeEnv e)).2 (file e) (answer e) (copyFailure e)).

#[export] Instance runtime : Runtime Env := {|
  timeNow := lift timeNow;
  clientDo method url := lift (clientDo method url);
  cmdStdoutPipe argv := lift (cmdStdoutPipe argv);
  cmdStart argv := lift (cmdStart argv);
  cmdWait argv := lift (cmdWait argv);
  readAll argv := lift (readAll argv);
  osMkdirTemp pattern := lift (osMkdirTemp pattern);
  osRemoveAll path := lift (osRemoveAll path);
  rangeOrder m := lift (rangeOrder m);
  rangeOrder_perm m e := rangeOrder_perm m (runtimeEnv e)
|}.

(** The file holds the word [one] for the one repository [user/snake], or
    [two] for it and the name of its container. *)
#[export] Instance configFile : ConfigFile Env := {|
  osReadFile path e :=
    (if String.eqb path "/data/battlesnakes.json" then file e
     else inl (ErrorOther "no such file or directory"), e);
  decodeSettings body :=
    if String.eqb body "one" then inr [mkContainerSetting "user/snake" "k"]
    else if String.eqb body "two"
    then inr [mkContainerSetting "user/snake" "k"; mkContainerSetting "bs-user-snake" "k2"]
    else inl (ErrorOther "unexpected end of JSON input")
|}.

#[export] Instance upstream : Upstream Env := {|
  httpNewRequest method url :=
    if String.eqb method "" then Some (ErrorOther "net/http: invalid method") else None;
  defaultClientDo method url body e := (answer e, e);
  ioCopy body e := (copyFailure e, e)
|}.

(** The body [p] is a ping for the earlier revision, any other a push. *)
#[export] Instance actionCodec : ApiR1.ActionCodec := {|
  ApiR1.unmarshalAction body := if String.eqb body "p" then inr "ping" else inr "push"
|}.

(** The decoder of [Sim], but that every webhook body is a push to the
    default branch [release/1] of [user/snake]. *)
Definition releaseCodec : Codec := {|
  decodeContainerState := @decodeContainerState Sim.codec;
  unmarshalPushRequest body :=
    inr (mkPushRequest "refs/heads/release/1" (mkRepository false "user/snake" "release/1"));
  unmarshalImageInfo := @unmarshalImageInfo Sim.codec;
  hmacSum := @hmacSum Sim.codec
|}.

Definition moved : UpstreamResponse :=
  mkUpstreamResponse 200 [("Content-Type", ["application/json"])] "{}".

(** The runtime of [Sim.quiet], a configuration file that holds [body], and
    an instance that answers [moved]. *)
Definition host (body : string) : Env := mkEnv Sim.quiet (inr body) (inr moved) None.

Definition world (states : gmap string ContainerState)
  (confs : gmap string buildConfigT) (e : Env) : World Env :=
  mkWorld states confs [] e.

End Host.

(** * The terms of the statements *)

Local Open Scope list_scope.

(** ** The cache and the runtime client *)

Section DockerTerms.
Import GoTime GoStrings Daemon Docker.
Context {Env : Type} {RT : Runtime Env} {CD : Codec}.

Definition registered (name : string) (w : World Env) : Prop :=
  is_Some (containerStates w !! name).

Definition commandUrl (name action : string) : string :=
  ("http://localhost/containers/" ++ name ++ "/" ++ action)%string.

Definition inspectUrl (name : string) : string :=
  ("http://localhost/containers/" ++ name ++ "/json")%string.

(** The address [CheckContainer] stores for an inspect answer. *)
Definition addressOf (result : ContainerStateJson) : string :=
  if String.eqb (NetworkSettings_IPAddress result) ""
  then firstAddress (NetworkSettings_Networks result)
  else NetworkSettings_IPAddress result.

Definition keeps {A} (m : M Env A) : Prop :=
  forall n w, registered n w -> registered n (m w).2.

End DockerTerms.

(** ** The idle scheduler *)

Section SchedulerTerms.
Import GoTime GoStrings Daemon Main.
Context {Env : Type} {RT : Runtime Env} {CD : Codec}.

(** What an instance adds to the bound on the next delay, in the spec's
    words: the pause threshold less the idle time when it runs unpaused and
    has been idle for less, the stop threshold less the idle time when it is
    paused and has been idle for less, nothing otherwise. *)
Definition contribution (container : ContainerState) (idle : Duration) : option Duration :=
  if Running container then
    if Paused container then
      if idle <? Hour then Some (dsub Hour idle) else None
    else
      if idle <? Minute then Some (dsub Minute idle) else None
  else None.

(** The least of [init] and the members of [l]. *)
Definition least (init : Duration) (l : list Duration) : Duration :=
  fold_left Z.min l init.

(** The entries of a pass in the order it visits them, each with the idle
    time the visitor computes for it from the clock. *)
Fixpoint idleTimes (idleOf : ContainerState -> M Env Duration)
  (entries : list (string * ContainerState)) (w : World Env)
  : list (string * ContainerState * Duration) :=
  match entries with
  | [] => []
  | (name, container) :: rest =>
      (name, container, (idleOf container w).1) :: idleTimes idleOf rest (idleOf container w).2
  end.

Definition passStart (w : World Env) : World Env :=
  mkWorld (containerStates w) (buildConfig w) (trace w)
          (rangeOrder (containerStates w) (env w)).2.

Definition visits (w : World Env) : list (string * ContainerState * Duration) :=
  idleTimes timeSince (rangeOrder (containerStates w) (env w)).1 (passStart w).

Definition visits_r1 (w : World Env) : list (string * ContainerState * Duration) :=
  idleTimes timeSince_r1 (rangeOrder (containerStates w) (env w)).1 (passStart w).

Definition contributions (vs : list (string * ContainerState * Duration)) : list Duration :=
  omap (fun v => contribution v.1.2 v.2) vs.

End SchedulerTerms.

(** ** The webhook *)

Section WebhookTerms.
Import GoTime GoStrings Daemon Api.
Context {Env : Type} {RT : Runtime Env} {CD : Codec}.

(** The signature header the handler checks: [X-Hub-Signature-256] when it
    is there, [X-Hub-Signature] otherwise. *)
Definition signatureOf (r : Request) : string :=
  if negb (String.eqb (XHubSignature256 r) "") then XHubSignature256 r else XHubSignature r.

(** The request names a registered repository: its body was read and decoded
    to [request], and [conf] is the configuration of the repository named. *)
Definition names (r : Request) (w : World Env) (body : string) (request : pushRequest)
  (conf : buildConfigT) : Prop :=
  ReadBody r = inr body
  /\ unmarshalPushRequest body = inr request
  /\ buildConfig w !! FullName (Repository request) = Some conf.

(** The request passes the two checks on its headers. *)
Definition wellFormed (r : Request) : Prop :=
  HasPrefix (UserAgent r) "GitHub-Hookshot/" = true
  /\ ContentType r = "application/json"%string.

(** The pieces of [Split] put together again with the separator. *)
Fixpoint joined (pieces : list string) (sep : ascii) : string :=
  match pieces with
  | [] => ""
  | [p] => p
  | p :: rest => (p ++ String sep (joined rest sep))%string
  end.

Definition withEvent (event : string) (r : Request) : Request :=
  mkRequest event (XHubSignature r) (XHubSignature256 r) (ContentType r) (UserAgent r)
            (ReadBody r).

End WebhookTerms.

(** ** The deploy pipeline *)

Section DeployTerms.
Import GoTime GoStrings Daemon Docker Api.
Context {Env : Type} {RT : Runtime Env} {CD : Codec}.

(** [w'] is [w] after the events [evs], with the same build configuration. *)
Definition emits (w w' : World Env) (evs : list Event) : Prop :=
  buildConfig w' = buildConfig w /\ trace w' = trace w ++ evs.

(** The same, and the cache is what it was. *)
Definition extends (w w' : World Env) (evs : list Event) : Prop :=
  containerStates w' = containerStates w /\ emits w w' evs.

Definition rmi (id : string) : Event := EvStart ["docker"; "rmi"; id]%string.

(** The ids the last loop of a deploy removes: those the lines decode to, each
    the first time it is met; [seen] are the ids met before. *)
Fixpoint pruned (lines : list string) (seen : list string) : list string :=
  match lines with
  | [] => []
  | line :: rest =>
      match unmarshalImageInfo line with
      | inl _ => pruned rest seen
      | inr id =>
          if Contains seen id then pruned rest seen
          else id :: pruned rest (seen ++ [id])
      end
  end.

(** The ids of the listing taken before the build, one for each line that
    decodes. *)
Definition snapshotIds (imagesRaw : string) : list string :=
  omap (fun line => match unmarshalImageInfo line with inl _ => None | inr id => Some id end)
       (Split imagesRaw (ascii_of_N 10)).

Definition cloneCmd (repoName repoDir : string) : Event :=
  EvStart ["git"; "clone"; "https://github.com/" ++ repoName ++ ".git"; repoDir]%string.

Definition buildCmd (repoName repoDir : string) : Event :=
  EvStart ["docker"; "build"; "-t"; repoName; repoDir]%string.

Definition rmCmd (containerName : string) : Event :=
  EvStart ["docker"; "rm"; containerName]%string.

Definition runEvent (repoName containerName : string) : Event :=
  EvStart ["docker"; "run"; "-d"; "--name"; containerName; repoName ++ ":local"]%string.

Definition imagesCmd (repoName : string) : Event :=
  EvStart ["docker"; "images"; "--format"; "{{ json . }}"; repoName]%string.

Definition stopRequest (containerName : string) : Event :=
  EvHttp "POST" (commandUrl containerName "stop").

Definition inspectRequest (containerName : string) : Event :=
  EvHttp "GET" (inspectUrl containerName).

Definition scratchPattern (repoName : string) : string :=
  (RepoNameToContainerName repoName ++ "-*")%string.

Definition imagesArgv (repoName : string) : list string :=
  ["docker"; "images"; "--format"; "{{ json . }}"; repoName]%string.

(** A run that got its scratch directory: the opening check found the
    container ([found]) or found it missing, the listing [imagesRaw] was read,
    [os.MkdirTemp] gave [repoDir], the steps from the clone on went from [wd]
    to [w2], and [os.RemoveAll(repoDir)] came last. *)
Definition ranInScratch (repoName : string) (w w' : World Env) (out : Outcome)
  (found : bool) (imagesRaw repoDir : string) (wd w2 : World Env) : Prop :=
  let containerName := RepoNameToContainerName repoName in
  (CheckContainer containerName w).1.2
    = (if found then None else Some ErrorDoesNotExist)
  /\ (exists e, (readAll (imagesArgv repoName) e).1 = inr imagesRaw)
  /\ (exists e, (osMkdirTemp (scratchPattern repoName) e).1 = inr repoDir)
  /\ emits w (CheckContainer containerName w).2 [inspectRequest containerName]
  /\ extends (CheckContainer containerName w).2 wd
       [imagesCmd repoName; EvMkdirTemp (scratchPattern repoName)]
  /\ deploySteps repoName containerName repoDir imagesRaw found wd = (out, w2)
  /\ extends w2 w' [EvRemoveAll repoDir].

Definition endedEarly (out : Outcome) : Prop :=
  out = CouldNotGetContainerState \/ out = CouldNotCreateStdoutPipe
  \/ out = CouldNotGetListOfImages \/ out = CouldNotCreateTempdir.

Definition grows {A} (m : M Env A) : Prop :=
  forall w, exists evs, trace (m w).2 = trace w ++ evs.

End DeployTerms.

(** ** The goroutines around the build lock *)

Section CoordinatorTerms.
Import Daemon Coordinator.

(** The goroutines that hold the lock: the one in the body, or the one between
    the read of [Queued] and [Unlock]. *)
Definition holders (s : Sys) : nat := inBody s + unlocking s.

Definition lockInvariant (s : Sys) : Prop :=
  holders s = if BuildingMutex (conf s) then 1%nat else 0%nat.

Definition afterQueued (s : Sys) : Sys :=
  mkSys (Api.setQueued true (conf s)) (inBody s) (unlocking s) 0 (runs s).

End CoordinatorTerms.

(** ** Worlds and requests for the examples *)

Section Scenarios.
Import GoTime GoStrings Daemon Docker Main Api Sim.

Definition snake : string := "bs-user-snake".

(** A cache with the one instance [snake] in the state [st]. *)
Definition cacheOf (st : ContainerState) : gmap string ContainerState := {[ snake := st ]}.

Definition registry : gmap string buildConfigT :=
  {[ "user/snake"%string := mkBuildConfig "k" false false ]}.

Definition never : ContainerState := mkContainerState true false None "" None.

Definition usedAgo (paused : bool) (idle : Duration) : ContainerState :=
  mkContainerState true paused (Some (noon - idle)) "172.18.0.2" None.

Definition hook (event sig contentType body : string) : Request :=
  mkRequest event "" sig contentType "GitHub-Hookshot/abc" (inr body).

Definition cloneFails : Env := mkEnv noon 0 200 "up" 204 ["clone"%string] "".

Definition listing : string := ("aaa" ++ nl ++ "aaa" ++ nl ++ "bbb" ++ nl)%string.

Definition twoImages : Env := mkEnv noon 0 200 "up" 204 [] listing.

Definition isRmi (ev : Event) : bool :=
  match ev with
  | EvStart (cmd :: sub :: _) => String.eqb cmd "docker" && String.eqb sub "rmi"
  | _ => false
  end.

(** The removals as C8 words them: the ids of the listing, each once, but for
    the id [newId] of the image just built. *)
Definition claimedRemovals (newId imagesRaw : string) : list string :=
  filter (fun id => negb (String.eqb id newId)) (nodup string_dec (snapshotIds imagesRaw)).

End Scenarios.

(** * Proofs *)

(** ** Durations and strings *)

Section LibraryFacts.
Import GoTime GoStrings.

Lemma wrap64_id z : minDuration <= z <= maxDuration -> wrap64 z = z.
Proof.
  unfold wrap64, minDuration, maxDuration. intros H.
  rewrite Z.mod_small; lia.
Qed.

Lemma Sub_range t u : minDuration <= Sub t u <= maxDuration.
Proof.
  unfold Sub.
  destruct (Z.ltb_spec maxDuration (t - u)); [unfold minDuration, maxDuration; lia|].
  destruct (Z.ltb_spec (t - u) minDuration); [unfold minDuration, maxDuration in *; lia|].
  lia.
Qed.

Lemma Sub_exact t u :
  minDuration <= t - u <= maxDuration -> Sub t u = t - u.
Proof.
  unfold Sub. intros H.
  destruct (Z.ltb_spec maxDuration (t - u)); [lia|].
  destruct (Z.ltb_spec (t - u) minDuration); lia.
Qed.

Lemma Sub_saturates t u : maxDuration <= t - u -> Sub t u = maxDuration.
Proof.
  unfold Sub. intros H.
  destruct (Z.ltb_spec maxDuration (t - u)); [done|].
  destruct (Z.ltb_spec (t - u) minDuration); unfold minDuration, maxDuration in *; lia.
Qed.

Lemma Contains_In l x : Contains l x = true <-> In x l.
Proof.
  unfold Contains. rewrite existsb_exists. split.
  - intros (y & Hy & E). apply String.eqb_eq in E. by subst.
  - intros H. exists x. split; [done | apply String.eqb_refl].
Qed.

End LibraryFacts.

(** ** The monad: how a function of the daemon runs *)

Section MonadFacts.
Import Daemon.
Context {Env : Type}.

Lemma bind_run {A B} (m : M Env A) (k : A -> M Env B) w :
  bind m k w = k (m w).1 (m w).2.
Proof. unfold bind. by destruct (m w). Qed.

End MonadFacts.

(** ** The cache and the runtime client *)

Ltac run_docker :=
  unfold Docker.EnsureContainerRunning, Docker.StartContainer, Docker.StartContainer_r1,
    Docker.StopContainer, Docker.PauseContainer, Docker.UnpauseContainer,
    Docker.CheckContainer, Docker.dockerExecCmd, Docker.dockerExecJson, Docker.dockerExec,
    Docker.updateState, Docker.updateRunning, Docker.updatePaused, Docker.UpdateUsed,
    Docker.RegisterContainer, Docker.IsStale, Docker.GetState, Docker.IsRegistered,
    Docker.isRegisteredUnsafe, Daemon.bind, Daemon.ret, Daemon.call, Daemon.ask,
    Daemon.getStates, Daemon.putStates, Daemon.getConfig, Daemon.putConfig in *;
  simpl in *.

Section DockerFacts.
Import GoTime GoStrings Daemon Docker.
Context {Env : Type} {RT : Runtime Env} {CD : Codec}.

Lemma dockerExecCmd_world container action (w : World Env) :
  (dockerExecCmd container action w).2
  = mkWorld (containerStates w) (buildConfig w)
      (trace w ++ [EvHttp "POST" (commandUrl container action)])
      (clientDo "POST" (commandUrl container action) (env w)).2.
Proof.
  run_docker. fold (commandUrl container action).
  destruct (clientDo _ _ _) as [[err|resp] e]; simpl; [done|].
  repeat case_match; done.
Qed.

Lemma updateRunning_run name running paused (w : World Env) st :
  containerStates w !! name = Some st ->
  updateRunning name running paused w
  = (None, mkWorld (<[name := mkContainerState running paused (LastUsed st) (IPAddress st)
                                      (Some (timeNow (env w)).1)]> (containerStates w))
             (buildConfig w) (trace w) (timeNow (env w)).2).
Proof. intros H. run_docker. rewrite H. by destruct (timeNow (env w)). Qed.

Lemma updatePaused_run name paused (w : World Env) st :
  containerStates w !! name = Some st ->
  updatePaused name paused w
  = (None, mkWorld (<[name := mkContainerState (Running st) paused (LastUsed st) (IPAddress st)
                                      (Some (timeNow (env w)).1)]> (containerStates w))
             (buildConfig w) (trace w) (timeNow (env w)).2).
Proof. intros H. run_docker. rewrite H. by destruct (timeNow (env w)). Qed.

Lemma updateState_run name running paused ip (w : World Env) st :
  containerStates w !! name = Some st ->
  updateState name running paused ip w
  = (None, mkWorld (<[name := mkContainerState running paused (LastUsed st) ip
                                      (Some (timeNow (env w)).1)]> (containerStates w))
             (buildConfig w) (trace w) (timeNow (env w)).2).
Proof. intros H. run_docker. rewrite H. by destruct (timeNow (env w)). Qed.

Lemma dockerExecCmd_result container action (w : World Env) :
  (dockerExecCmd container action w).1 = None <->
  exists resp, (clientDo "POST" (commandUrl container action) (env w)).1 = inr resp
               /\ (StatusCode resp = 204 \/ StatusCode resp = 304).
Proof.
  run_docker. fold (commandUrl container action).
  destruct (clientDo _ _ _) as [[err|resp] e]; simpl.
  - split; [done | by intros (? & ? & _)].
  - destruct (Z.eqb_spec (StatusCode resp) 204) as [E1|E1]; simpl.
    { split; [|done]. intros _. exists resp. auto. }
    destruct (Z.eqb_spec (StatusCode resp) 304) as [E2|E2]; simpl.
    { split; [|done]. intros _. exists resp. auto. }
    destruct (Z.eqb_spec (StatusCode resp) 404); simpl;
      (split; [done | intros (r & [= <-] & [?|?]); lia]).
Qed.

Lemma CheckContainer_ok name (w w' : World Env) running :
  CheckContainer name w = ((running, None), w') ->
  exists st resp result,
    containerStates w !! name = Some st
    /\ (clientDo "GET" (inspectUrl name) (env w)).1 = inr resp
    /\ StatusCode resp = 200
    /\ decodeContainerState (Body resp) = inr result
    /\ running = State_Running result && negb (State_Paused result)
    /\ containerStates w'
       = <[name := mkContainerState (State_Running result) (State_Paused result)
                     (LastUsed st) (addressOf result)
                     (Some (timeNow (clientDo "GET" (inspectUrl name) (env w)).2).1)]>
           (containerStates w)
    /\ buildConfig w' = buildConfig w
    /\ trace w' = trace w ++ [EvHttp "GET" (inspectUrl name)].
Proof.
  run_docker. fold (inspectUrl name).
  destruct (containerStates w !! name) as [st|] eqn:Hst; simpl; [|done].
  destruct (clientDo "GET" (inspectUrl name) (env w)) as [[err|resp] e] eqn:Hdo; simpl; [done|].
  destruct (Z.eqb_spec (StatusCode resp) 404); simpl; [done|].
  destruct (Z.eqb_spec (StatusCode resp) 200); simpl; [|done].
  destruct (decodeContainerState (Body resp)) as [err|result] eqn:Hdec; simpl; [done|].
  rewrite Hst. destruct (timeNow e) as [t e'] eqn:Ht. simpl. rewrite Ht. simpl.
  intros [= <- <-]. by exists st, resp, result.
Qed.

(** C7 (later revision).  For a registered instance, a write the runtime
    acknowledges always ends in a cache update: [StopContainer],
    [PauseContainer] and [UnpauseContainer] return no error as soon as the
    runtime answers 204 or 304, and when they return no error the cached
    flags are running = false and paused = false after a stop, paused = true
    after a pause, paused = false after an unpause, with the refresh time read
    from the clock after the command and no request but the command sent (no
    inspect).  When [StartContainer] returns no error it has sent the command
    and then an inspect, and the cached flags and address are those of that
    inspect answer. *)
Theorem write_operations_update_the_cache (name : string) (w : World Env) (st : ContainerState) :
  containerStates w !! name = Some st ->
  let stamp action := Some (timeNow (clientDo "POST" (commandUrl name action) (env w)).2).1 in
  ((dockerExecCmd name "stop" w).1 = None -> (StopContainer name w).1 = None)
  /\ ((dockerExecCmd name "pause" w).1 = None -> (PauseContainer name w).1 = None)
  /\ ((dockerExecCmd name "unpause" w).1 = None -> (UnpauseContainer name w).1 = None)
  /\ (forall w', StopContainer name w = (None, w') ->
        containerStates w'
        = <[name := mkContainerState false false (LastUsed st) (IPAddress st) (stamp "stop")]>
            (containerStates w)
        /\ trace w' = trace w ++ [EvHttp "POST" (commandUrl name "stop")])
  /\ (forall w', PauseContainer name w = (None, w') ->
        containerStates w'
        = <[name := mkContainerState (Running st) true (LastUsed st) (IPAddress st)
                      (stamp "pause")]> (containerStates w)
        /\ trace w' = trace w ++ [EvHttp "POST" (commandUrl name "pause")])
  /\ (forall w', UnpauseContainer name w = (None, w') ->
        containerStates w'
        = <[name := mkContainerState (Running st) false (LastUsed st) (IPAddress st)
                      (stamp "unpause")]> (containerStates w)
        /\ trace w' = trace w ++ [EvHttp "POST" (commandUrl name "unpause")])
  /\ (forall w', StartContainer name w = (None, w') ->
        exists resp result,
          (clientDo "GET" (inspectUrl name)
             (clientDo "POST" (commandUrl name "start") (env w)).2).1 = inr resp
          /\ decodeContainerState (Body resp) = inr result
          /\ containerStates w'
             = <[name := mkContainerState (State_Running result) (State_Paused result)
                           (LastUsed st) (addressOf result)
                           (Some (timeNow (clientDo "GET" (inspectUrl name)
                              (clientDo "POST" (commandUrl name "start") (env w)).2).2).1)]>
                 (containerStates w)
          /\ trace w' = trace w ++ [EvHttp "POST" (commandUrl name "start");
                                    EvHttp "GET" (inspectUrl name)]).
Proof.
  intros Hst stamp.
  assert (Hw : forall action,
             containerStates (dockerExecCmd name action w).2 !! name = Some st).
  { intros action. by rewrite dockerExecCmd_world. }
  assert (Hstop : forall action (after : M Env (option error)) w',
             (let* registered := IsRegistered name in
              if negb registered then ret (Some ErrorNotRegistered)
              else let* err := dockerExecCmd name action in
                   match err with Some e => ret (Some e) | None => after end)%go w = (None, w')
             -> (dockerExecCmd name action w).1 = None
                /\ after (dockerExecCmd name action w).2 = (None, w')).
  { intros action after w'. rewrite bind_run.
    unfold IsRegistered at 1, IsRegistered at 1, bind, getStates, ret. simpl. rewrite Hst. simpl.
    destruct (dockerExecCmd name action w) as [[e|] w1]; simpl; [done|]. done. }
  assert (Hdone : forall action (after : M Env (option error)),
             (dockerExecCmd name action w).1 = None ->
             (let* registered := IsRegistered name in
              if negb registered then ret (Some ErrorNotRegistered)
              else let* err := dockerExecCmd name action in
                   match err with Some e => ret (Some e) | None => after end)%go w
             = after (dockerExecCmd name action w).2).
  { intros action after. rewrite bind_run.
    unfold IsRegistered at 1, IsRegistered at 1, bind, getStates, ret. simpl. rewrite Hst. simpl.
    destruct (dockerExecCmd name action w) as [[e|] w1]; simpl; [done|]. done. }
  split; [|split; [|split; [|split; [|split; [|split]]]]].
  - intros H. unfold StopContainer. rewrite (Hdone _ _ H).
    by rewrite (updateRunning_run _ _ _ _ st (Hw _)).
  - intros H. unfold PauseContainer. rewrite (Hdone _ _ H).
    by rewrite (updatePaused_run _ _ _ st (Hw _)).
  - intros H. unfold UnpauseContainer. rewrite (Hdone _ _ H).
    by rewrite (updatePaused_run _ _ _ st (Hw _)).
  - intros w' H. apply Hstop in H as [_ H].
    rewrite (updateRunning_run _ _ _ _ st (Hw _)) in H. injection H as <-.
    by rewrite !dockerExecCmd_world.
  - intros w' H. apply Hstop in H as [_ H].
    rewrite (updatePaused_run _ _ _ st (Hw _)) in H. injection H as <-.
    by rewrite !dockerExecCmd_world.
  - intros w' H. apply Hstop in H as [_ H].
    rewrite (updatePaused_run _ _ _ st (Hw _)) in H. injection H as <-.
    by rewrite !dockerExecCmd_world.
  - intros w' H. apply Hstop in H as [_ H]. rewrite bind_run in H.
    destruct (CheckContainer name (dockerExecCmd name "start" w).2) as [[running err] w1] eqn:Hc.
    simpl in H. injection H as -> ->.
    apply CheckContainer_ok in Hc as (st' & resp & result & H1 & H2 & H3 & H4 & H5 & H6 & H7 & H8).
    rewrite Hw in H1. injection H1 as <-.
    rewrite dockerExecCmd_world in H2, H6, H8. simpl in H2, H6, H8.
    exists resp, result. split; [done|]. split; [done|]. split; [exact H6|].
    rewrite H8. by rewrite <- app_assoc.
Qed.

(** The earlier revision of [StartContainer] sends the command only and
    keeps the cached address. *)
Lemma StartContainer_r1_keeps_address (name : string) (w w' : World Env) (st : ContainerState) :
  containerStates w !! name = Some st ->
  StartContainer_r1 name w = (None, w') ->
  containerStates w'
  = <[name := mkContainerState true false (LastUsed st) (IPAddress st)
                (Some (timeNow (clientDo "POST" (commandUrl name "start") (env w)).2).1)]>
      (containerStates w)
  /\ trace w' = trace w ++ [EvHttp "POST" (commandUrl name "start")].
Proof.
  intros Hst. unfold StartContainer_r1. rewrite bind_run.
  unfold IsRegistered at 1, IsRegistered at 1, bind, getStates, ret. simpl. rewrite Hst. simpl.
  destruct (dockerExecCmd name "start" w) as [[e|] w1] eqn:Hc; simpl; [done|].
  assert (w1 = (dockerExecCmd name "start" w).2) as -> by by rewrite Hc.
  rewrite (updateRunning_run _ _ _ _ st) by by rewrite dockerExecCmd_world.
  intros [= <-]. by rewrite !dockerExecCmd_world.
Qed.

(** The four writes share their first lines. *)
Lemma command_run name action (after : M Env (option error)) w :
  (let* registered := IsRegistered name in
   if negb registered then ret (Some ErrorNotRegistered)
   else let* err := dockerExecCmd name action in
        match err with Some e => ret (Some e) | None => after end)%go w
  = match containerStates w !! name with
    | None => (Some ErrorNotRegistered, w)
    | Some _ =>
        match (dockerExecCmd name action w).1 with
        | Some e => (Some e, (dockerExecCmd name action w).2)
        | None => after (dockerExecCmd name action w).2
        end
    end.
Proof.
  rewrite bind_run. unfold IsRegistered at 1, IsRegistered at 1, bind, getStates, ret.
  cbn [fst snd]. destruct (containerStates w !! name); cbn [negb]; [|done].
  by destruct (dockerExecCmd name action w) as [[e|] w1].
Qed.

(** *** Registrations stay *)

Lemma keeps_bind {A B} (m : M Env A) (k : A -> M Env B) :
  keeps m -> (forall a, keeps (k a)) -> keeps (bind m k).
Proof.
  intros Hm Hk n w Hn. rewrite bind_run. apply Hk, Hm, Hn.
Qed.

Lemma keeps_ret {A} (a : A) : keeps (ret a : M Env A).
Proof. by intros n w. Qed.

Lemma keeps_ask {A} (f : Env -> A * Env) : keeps (ask f).
Proof. intros n w. unfold ask, registered. by destruct (f (env w)). Qed.

Lemma keeps_call {A} ev (f : Env -> A * Env) : keeps (call ev f).
Proof. intros n w. unfold call, registered. by destruct (f (env w)). Qed.

Lemma keeps_getStates : keeps (getStates : M Env _).
Proof. by intros n w. Qed.

Lemma keeps_insert name st (w : World Env) n :
  registered n w ->
  registered n (putStates (<[name := st]> (containerStates w)) w).2.
Proof.
  unfold registered, putStates. simpl. intros H.
  destruct (decide (name = n)) as [->|Hne].
  - rewrite lookup_insert_eq. by eexists.
  - by rewrite lookup_insert_ne.
Qed.

Ltac keeps_update :=
  intros n w Hn; run_docker;
  destruct (containerStates w !! _) eqn:E; simpl; [|done];
  destruct (timeNow (env w)); simpl;
  unfold registered in *; simpl;
  match goal with
  | |- is_Some (<[?k := _]> _ !! n) =>
      destruct (decide (k = n)) as [->|Hne];
      [rewrite lookup_insert_eq; by eexists | by rewrite lookup_insert_ne]
  end.

Lemma keeps_updateState name r p ip : keeps (updateState name r p ip).
Proof. keeps_update. Qed.
Lemma keeps_updateRunning name r p : keeps (updateRunning name r p).
Proof. keeps_update. Qed.
Lemma keeps_updatePaused name p : keeps (updatePaused name p).
Proof. keeps_update. Qed.
Lemma keeps_UpdateUsed name : keeps (UpdateUsed name).
Proof. keeps_update. Qed.

Lemma keeps_RegisterContainer name : keeps (RegisterContainer name : M Env unit).
Proof.
  intros n w Hn. run_docker.
  destruct (containerStates w !! name) eqn:E; simpl; [done|].
  unfold registered in *. simpl.
  destruct (decide (name = n)) as [->|Hne];
    [rewrite lookup_insert_eq; by eexists | by rewrite lookup_insert_ne].
Qed.

Lemma keeps_IsRegistered name : keeps (IsRegistered name : M Env bool).
Proof. by intros n w. Qed.

Lemma keeps_dockerExecCmd c a : keeps (dockerExecCmd c a).
Proof. intros n w Hn. by rewrite dockerExecCmd_world. Qed.

Lemma keeps_dockerExecJson m u : keeps (dockerExecJson m u).
Proof.
  intros n w Hn. run_docker.
  destruct (clientDo m u (env w)) as [[?|resp] e]; simpl; [done|].
  repeat case_match; done.
Qed.

Lemma keeps_CheckContainer name : keeps (CheckContainer name).
Proof.
  unfold CheckContainer.
  apply keeps_bind; [apply keeps_IsRegistered|]. intros b.
  destruct (negb b); [apply keeps_ret|].
  apply keeps_bind; [apply keeps_dockerExecJson|]. intros [err|result]; [apply keeps_ret|].
  apply keeps_bind; [apply keeps_updateState|]. intros [e|]; apply keeps_ret.
Qed.

Lemma keeps_command name action (after : M Env (option error)) :
  keeps after ->
  keeps (let* registered := IsRegistered name in
         if negb registered then ret (Some ErrorNotRegistered)
         else let* err := dockerExecCmd name action in
              match err with Some e => ret (Some e) | None => after end)%go.
Proof.
  intros Ha.
  apply keeps_bind; [apply keeps_IsRegistered|]. intros b.
  destruct (negb b); [apply keeps_ret|].
  apply keeps_bind; [apply keeps_dockerExecCmd|]. intros [e|]; [apply keeps_ret | done].
Qed.

Lemma keeps_StartContainer name : keeps (StartContainer name).
Proof.
  apply keeps_command. apply keeps_bind; [apply keeps_CheckContainer|].
  intros r. apply keeps_ret.
Qed.
Lemma keeps_StopContainer name : keeps (StopContainer name).
Proof. apply keeps_command, keeps_updateRunning. Qed.
Lemma keeps_PauseContainer name : keeps (PauseContainer name).
Proof. apply keeps_command, keeps_updatePaused. Qed.
Lemma keeps_UnpauseContainer name : keeps (UnpauseContainer name).
Proof. apply keeps_command, keeps_updatePaused. Qed.

Lemma keeps_IsStale name : keeps (IsStale name).
Proof.
  intros n w Hn. run_docker.
  destruct (containerStates w !! name) as [c|]; simpl; [|done].
  destruct (LastUpdate c); simpl; [|done]. by destruct (timeNow (env w)).
Qed.

Lemma keeps_GetState name : keeps (GetState name : M Env _).
Proof.
  intros n w Hn. run_docker. by destruct (containerStates w !! name).
Qed.

Lemma keeps_EnsureContainerRunning name : keeps (EnsureContainerRunning name).
Proof.
  unfold EnsureContainerRunning.
  apply keeps_bind; [apply keeps_IsStale|]. intros stale.
  apply keeps_bind.
  { destruct stale; [|apply keeps_ret].
    apply keeps_bind; [apply keeps_CheckContainer|]. intros r. apply keeps_ret. }
  intros [e|]; [apply keeps_ret|].
  apply keeps_bind; [apply keeps_GetState|]. intros [state [e|]]; [apply keeps_ret|].
  destruct (Running state && Paused state); [apply keeps_UnpauseContainer|].
  destruct (negb (Running state)); [apply keeps_StartContainer | apply keeps_ret].
Qed.

Lemma GetState_registered name (w : World Env) :
  registered name w ->
  exists st, containerStates w !! name = Some st /\ GetState name w = ((st, None), w).
Proof.
  intros [st Hst]. exists st. split; [done|]. run_docker. by rewrite Hst.
Qed.

(** C10.  When [EnsureContainerRunning] returns no error the name is in the
    cache of the world it leaves, every name registered before is still
    registered, and the [GetState] that follows returns the entry and no
    error; so [ensureContainerRunning] of the proxy answers with that entry's
    address and writes nothing. *)
Theorem GetState_after_EnsureContainerRunning (name : string) (w w' : World Env) :
  EnsureContainerRunning name w = (None, w') ->
  (forall n, registered n w -> registered n w')
  /\ exists st,
       containerStates w' !! name = Some st
       /\ GetState name w' = ((st, None), w')
       /\ Api.ensureContainerRunning name w = ((IPAddress st, true, None), w').
Proof.
  intros H.
  assert (Hkeep : forall n, registered n w -> registered n w').
  { intros n Hn. pose proof (keeps_EnsureContainerRunning name n w Hn) as K.
    by rewrite H in K. }
  split; [done|].
  assert (Htail : forall w2,
             (let* '(state, err) := GetState name in
              match err with
              | Some e => ret (Some e)
              | None =>
                  if Running state && Paused state then UnpauseContainer name
                  else if negb (Running state) then StartContainer name
                  else ret None
              end)%go w2 = (None, w') -> registered name w').
  { intros w2. rewrite bind_run.
    destruct (GetState name w2) as [[state err] w3] eqn:Hg. simpl.
    assert (err = None -> registered name w2 /\ w3 = w2) as Hr.
    { revert Hg. run_docker. unfold registered.
      destruct (containerStates w2 !! name); intros [= <- <- <-]; [eauto | done]. }
    destruct err as [e|]; simpl; [done|]. destruct (Hr eq_refl) as [Hr2 ->].
    intros Hrest.
    destruct (Running state && Paused state).
    { pose proof (keeps_UnpauseContainer name name w2 Hr2) as K. by rewrite Hrest in K. }
    destruct (negb (Running state)).
    { pose proof (keeps_StartContainer name name w2 Hr2) as K. by rewrite Hrest in K. }
    by injection Hrest as <-. }
  assert (Hreg : registered name w').
  { revert H. unfold EnsureContainerRunning. unfold bind at 1.
    destruct (IsStale name w) as [stale w1]. unfold bind at 1.
    destruct stale.
    - unfold bind at 1. destruct (CheckContainer name w1) as [[r [e|]] w2]; simpl; [done|].
      apply Htail.
    - simpl. apply Htail. }
  destruct (GetState_registered name w' Hreg) as (st & Hst & Hget).
  exists st. split; [done|]. split; [done|].
  unfold Api.ensureContainerRunning. rewrite bind_run, H. simpl.
  rewrite bind_run, Hget. done.
Qed.

End DockerFacts.

(** ** The idle scheduler *)

Ltac durations :=
  change GoTime.maxDuration with 9223372036854775807 in *;
  change GoTime.minDuration with (-9223372036854775808) in *;
  change GoTime.Hour with 3600000000000 in *;
  change GoTime.Minute with 60000000000 in *;
  change GoTime.Second with 1000000000 in *.

Section SchedulerFacts.
Import GoTime GoStrings Daemon Main.
Context {Env : Type} {RT : Runtime Env} {CD : Codec}.

Lemma timeSince_never_used container (w : World Env) :
  LastUsed container = None ->
  (timeSince container w).1 = Sub (timeNow (env w)).1 zeroTime.
Proof.
  intros H. unfold timeSince, bind, ask, ret. rewrite H.
  by destruct (timeNow (env w)).
Qed.

Lemma timeSince_used container lastUsed (w : World Env) :
  LastUsed container = Some lastUsed ->
  (timeSince container w).1 = Sub (timeNow (timeNow (env w)).2).1 lastUsed.
Proof.
  intros H. unfold timeSince, bind, ask, ret. rewrite H.
  destruct (timeNow (env w)) as [t e]. simpl. by destruct (timeNow e).
Qed.

Lemma visitor_run name container v (w : World Env) :
  visitor name container v w
  = ((true, account name container (timeSince container w).1 v), (timeSince container w).2).
Proof. unfold visitor. rewrite bind_run. done. Qed.

Lemma nextRunner_account name container idle v :
  nextRunner (account name container idle v)
  = match contribution container idle with
    | Some d => Z.min (nextRunner v) d
    | None => nextRunner v
    end.
Proof.
  unfold account, contribution, PAUSE_DELAY, STOP_DELAY, GoTime.min.
  destruct (Running container), (Paused container); simpl; try done.
  - by destruct (idle <? Hour).
  - by destruct (idle <? Minute).
Qed.

Lemma least_cons init d l : least init (d :: l) = least (Z.min init d) l.
Proof. done. Qed.

Lemma least_le_init l : forall init, least init l <= init.
Proof.
  induction l as [|d l IH]; intros init; [unfold least; simpl; lia|].
  rewrite least_cons. specialize (IH (Z.min init d)). lia.
Qed.

Lemma least_le_member l : forall init d, In d l -> least init l <= d.
Proof.
  induction l as [|x l IH]; intros init d; [done|]. intros [->|Hin]; rewrite least_cons.
  - pose proof (least_le_init l (Z.min init d)). lia.
  - by apply IH.
Qed.

Lemma least_attained l : forall init, least init l = init \/ In (least init l) l.
Proof.
  induction l as [|x l IH]; intros init; [by left|]. rewrite least_cons.
  destruct (IH (Z.min init x)) as [E|Hin]; [|right; by right].
  rewrite E. destruct (Z.min_spec init x) as [[_ ->]|[_ ->]]; [by left | right; by left].
Qed.

(** The loop of a pass leaves in [nextRunner] the least of its first value
    and the contributions of the entries visited. *)
Lemma pass_nextRunner (idleOf : ContainerState -> M Env Duration) :
  forall entries v (w : World Env),
    (forRange entries
       (fun kv v => let* idle := idleOf kv.2 in ret (true, account kv.1 kv.2 idle v))%go v w).1
      .(nextRunner)
    = least (nextRunner v) (contributions (idleTimes idleOf entries w)).
Proof.
  induction entries as [|[name container] rest IH]; intros v w; [done|].
  cbn [forRange idleTimes]. rewrite bind_run. cbn [fst snd]. rewrite bind_run. cbn [ret fst snd].
  rewrite IH. unfold contributions at 2. cbn [omap list_omap fst snd].
  fold (contributions (idleTimes idleOf rest (idleOf container w).2)).
  rewrite nextRunner_account.
  by destruct (contribution container (idleOf container w).1).
Qed.

Lemma idleTimes_entries (idleOf : ContainerState -> M Env Duration) :
  forall entries (w : World Env), map fst (idleTimes idleOf entries w) = entries.
Proof.
  induction entries as [|[name container] rest IH]; intros w; [done|].
  cbn [idleTimes map fst]. by rewrite IH.
Qed.

Lemma job_result (w : World Env) :
  (stopOldContainersJob w).1
  = nextRunner (forRange (rangeOrder (containerStates w) (env w)).1
                  (fun kv => visitor kv.1 kv.2) (mkJobVars [] [] Minute) (passStart w)).1.
Proof.
  unfold stopOldContainersJob. rewrite !bind_run. cbn [ret fst].
  unfold Docker.IterContainers. rewrite !bind_run. cbn [getStates fst snd].
  unfold ask at 1 2, passStart. cbn [env containerStates buildConfig trace].
  by destruct (rangeOrder (containerStates w) (env w)).
Qed.

Lemma job_result_r1 (w : World Env) :
  (stopOldContainersJob_r1 w).1
  = nextRunner (forRange (rangeOrder (containerStates w) (env w)).1
                  (fun kv => visitor_r1 kv.1 kv.2) (mkJobVars [] [] Hour) (passStart w)).1.
Proof.
  unfold stopOldContainersJob_r1. rewrite !bind_run. cbn [ret fst].
  unfold Docker.IterContainers. rewrite !bind_run. cbn [getStates fst snd].
  unfold ask at 1 2, passStart. cbn [env containerStates buildConfig trace].
  by destruct (rangeOrder (containerStates w) (env w)).
Qed.

(** C2, as the later revision has it.  A pass visits every entry of the
    cache once, and the delay it returns is the least of one minute and the
    contributions of the entries it keeps: one minute when nothing
    contributes, never more than one minute, never more than a contribution,
    and always one minute or one of the contributions. *)
Theorem delay_is_least_of_minute_and_contributions (w : World Env) :
  let delay := (stopOldContainersJob w).1 in
  Permutation (map fst (visits w)) (map_to_list (containerStates w))
  /\ delay = least Minute (contributions (visits w))
  /\ (contributions (visits w) = [] -> delay = Minute)
  /\ delay <= Minute
  /\ (forall d, In d (contributions (visits w)) -> delay <= d)
  /\ (delay = Minute \/ In delay (contributions (visits w))).
Proof.
  intros delay.
  assert (E : delay = least Minute (contributions (visits w))).
  { unfold delay. rewrite job_result. unfold visits.
    exact (pass_nextRunner timeSince _ (mkJobVars [] [] Minute) (passStart w)). }
  split; [|split; [done|]].
  { unfold visits. rewrite idleTimes_entries. apply rangeOrder_perm. }
  rewrite E. split; [by intros ->|]. split; [apply least_le_init|].
  split; [intros d; apply least_le_member | apply least_attained].
Qed.

(** The earlier revision starts from one hour, and measures the idle time
    the other way round (see [timeSince_r1]). *)
Lemma delay_r1 (w : World Env) :
  (stopOldContainersJob_r1 w).1 = least Hour (contributions (visits_r1 w)).
Proof.
  rewrite job_result_r1. unfold visits_r1.
  exact (pass_nextRunner timeSince_r1 _ (mkJobVars [] [] Hour) (passStart w)).
Qed.

(** C4.  The visitor never stops the iteration, and what it does with an
    entry follows the entry's flags and its idle time [idle]: not running,
    nothing; running and not paused, [idle] under one minute lowers
    [nextRunner] to at most one minute less [idle] and queues nothing,
    otherwise the name is queued for a pause; running and paused, [idle]
    under one hour lowers [nextRunner] to at most one hour less [idle],
    otherwise the name is queued for a stop.  [idle] is the time from
    [lastUsed] to the clock's reading, and the subtraction from a threshold is
    exact unless it leaves the range of a duration. *)
Theorem visitor_classifies (name : string) (container : ContainerState) (v : JobVars)
  (w : World Env) :
  let idle := (timeSince container w).1 in
  let v' := (visitor name container v w).1.2 in
  (visitor name container v w).1.1 = true
  /\ (Running container = false -> v' = v)
  /\ (Running container = true -> Paused container = false -> idle < Minute ->
      v' = mkJobVars (toStop v) (toPause v) (Z.min (nextRunner v) (dsub Minute idle))
      /\ contribution container idle = Some (dsub Minute idle))
  /\ (Running container = true -> Paused container = false -> Minute <= idle ->
      v' = mkJobVars (toStop v) (toPause v ++ [name]) (nextRunner v)
      /\ contribution container idle = None)
  /\ (Running container = true -> Paused container = true -> idle < Hour ->
      v' = mkJobVars (toStop v) (toPause v) (Z.min (nextRunner v) (dsub Hour idle))
      /\ contribution container idle = Some (dsub Hour idle))
  /\ (Running container = true -> Paused container = true -> Hour <= idle ->
      v' = mkJobVars (toStop v ++ [name]) (toPause v) (nextRunner v)
      /\ contribution container idle = None)
  /\ (forall lastUsed, LastUsed container = Some lastUsed ->
      let now := (timeNow (timeNow (env w)).2).1 in
      idle = Sub now lastUsed
      /\ (minDuration <= now - lastUsed <= maxDuration -> idle = now - lastUsed))
  /\ (forall threshold, threshold - maxDuration <= idle < threshold ->
      dsub threshold idle = threshold - idle).
Proof.
  intros idle v'. unfold v'. rewrite visitor_run. cbn [fst snd]. fold idle.
  unfold account, contribution, PAUSE_DELAY, STOP_DELAY, GoTime.min.
  split; [done|]. split; [by intros ->|].
  split. { intros -> -> H. apply Z.ltb_lt in H. by rewrite H. }
  split. { intros -> -> H. apply Z.ltb_ge in H. by rewrite H. }
  split. { intros -> -> H. apply Z.ltb_lt in H. by rewrite H. }
  split. { intros -> -> H. apply Z.ltb_ge in H. by rewrite H. }
  split.
  - intros lastUsed H. unfold idle. rewrite (timeSince_used _ _ _ H).
    split; [done | apply Sub_exact].
  - intros threshold H. unfold dsub. apply wrap64_id. durations. lia.
Qed.

(** C3 (later revision).  For an entry that was never used the visitor takes
    the time from the zero Time to the clock's reading as the idle time.  With
    a clock that reads an hour or more past the zero Time this is at least
    both thresholds (and the largest duration there is once the clock is 292
    years past it), so a running entry is queued for a pause when it is not
    paused and for a stop when it is, and [nextRunner] stays as it was. *)
Theorem never_used_is_due (name : string) (container : ContainerState) (v : JobVars)
  (w : World Env) :
  Running container = true ->
  LastUsed container = None ->
  Hour <= (timeNow (env w)).1 ->
  let idle := (timeSince container w).1 in
  let v' := (visitor name container v w).1.2 in
  Minute <= idle /\ Hour <= idle
  /\ (maxDuration <= (timeNow (env w)).1 -> idle = maxDuration)
  /\ contribution container idle = None
  /\ nextRunner v' = nextRunner v
  /\ (Paused container = false ->
      v' = mkJobVars (toStop v) (toPause v ++ [name]) (nextRunner v))
  /\ (Paused container = true ->
      v' = mkJobVars (toStop v ++ [name]) (toPause v) (nextRunner v)).
Proof.
  intros Hrun Hnil Hclock idle v'.
  assert (Hidle : idle = Sub (timeNow (env w)).1 zeroTime).
  { unfold idle. by apply timeSince_never_used. }
  assert (Hge : Hour <= idle).
  { rewrite Hidle. unfold Sub, zeroTime.
    destruct (Z.ltb_spec maxDuration ((timeNow (env w)).1 - 0)); [durations; lia|].
    destruct (Z.ltb_spec ((timeNow (env w)).1 - 0) minDuration); durations; lia. }
  assert (Hge' : Minute <= idle) by (durations; lia).
  split; [done|]. split; [done|].
  split. { intros H. rewrite Hidle. apply Sub_saturates. unfold zeroTime. lia. }
  destruct (visitor_classifies name container v w)
    as (_ & _ & _ & Hpause & _ & Hstop & _).
  fold idle v' in Hpause, Hstop.
  destruct (Paused container) eqn:Hp.
  - destruct (Hstop Hrun eq_refl Hge) as [-> ->]. done.
  - destruct (Hpause Hrun eq_refl Hge') as [-> ->]. done.
Qed.

(** The earlier revision takes zero as the idle time of an entry never used,
    so it keeps it. *)
Lemma never_used_is_kept_r1 (name : string) (container : ContainerState) (v : JobVars)
  (w : World Env) :
  Running container = true ->
  LastUsed container = None ->
  (timeSince_r1 container w).1 = 0
  /\ toStop (visitor_r1 name container v w).1.2 = toStop v
  /\ toPause (visitor_r1 name container v w).1.2 = toPause v.
Proof.
  intros Hrun Hnil. unfold visitor_r1. rewrite bind_run.
  unfold timeSince_r1. rewrite Hnil. cbn [ret fst snd].
  split; [done|]. unfold account. rewrite Hrun.
  by destruct (Paused container).
Qed.

End SchedulerFacts.

(** ** The webhook *)

Section WebhookFacts.
Import GoTime GoStrings Daemon Api.
Context {Env : Type} {RT : Runtime Env} {CD : Codec}.

Lemma handler_run r (w : World Env) body request conf :
  names r w body request conf ->
  githubWebhookHandler r w
  = if negb (HasPrefix (UserAgent r) "GitHub-Hookshot/") then (mkReply 401 "Access Denied", w)
    else if negb (String.eqb (ContentType r) "application/json")
    then (mkReply 400 "Invalid Content-Type. Only json Supported", w)
    else match checkSecret body (Secret conf) (signatureOf r) with
         | Some err => (mkReply 401 ("Access Denied: " ++ errorString err)%string, w)
         | None => afterSignature (XGitHubEvent r) request (buildConfig w) conf w
         end.
Proof.
  intros (Hbody & Hjson & Hconf). unfold githubWebhookHandler.
  destruct (negb (HasPrefix _ _)); [done|].
  destruct (negb (String.eqb (ContentType r) _)); [done|].
  rewrite Hbody, Hjson. unfold bind at 1, getConfig at 1. rewrite Hconf.
  fold (signatureOf r).
  by destruct (checkSecret body (Secret conf) (signatureOf r)).
Qed.

Lemma Split_nonempty s sep : Split s sep <> [].
Proof.
  destruct s as [|c s]; [done|]. simpl.
  destruct (Ascii.eqb c sep); [done|]. by destruct (Split s sep).
Qed.

Lemma joined_Split s sep : joined (Split s sep) sep = s.
Proof.
  induction s as [|c s IH]; [done|]. simpl.
  destruct (Ascii.eqb_spec c sep) as [->|Hne].
  - pose proof (Split_nonempty s sep).
    destruct (Split s sep) as [|p ps] eqn:E; [done|].
    change (joined ("" :: p :: ps) sep) with (String sep (joined (p :: ps) sep)).
    by rewrite IH.
  - pose proof (Split_nonempty s sep).
    destruct (Split s sep) as [|p ps] eqn:E; [done|].
    destruct ps as [|q qs].
    + simpl in *. by rewrite IH.
    + change (joined (String c p :: q :: qs) sep)
        with (String c (p ++ String sep (joined (q :: qs) sep)))%string.
      f_equal. exact IH.
Qed.

Lemma Split_three s a b c :
  Split s "/"%char = [a; b; c] -> s = (a ++ "/" ++ b ++ "/" ++ c)%string.
Proof. intros H. rewrite <- (joined_Split s "/"%char), H. done. Qed.

(** C5, amended.  A request whose signature does not verify against the
    secret of the repository it names is refused and changes nothing, and
    neither the event nor the ref has a part in the answer: 401 when the user
    agent is not GitHub's, else 400 when the content type is not
    [application/json], else 401 with the reason the check gave.  So a request
    that passes the two header checks gets the access-denied answer, whatever
    its event and its ref. *)
Theorem invalid_signature_is_refused (r : Request) (w : World Env) (body : string)
  (request : pushRequest) (conf : buildConfigT) (err : error) :
  names r w body request conf ->
  checkSecret body (Secret conf) (signatureOf r) = Some err ->
  githubWebhookHandler r w
  = (if negb (HasPrefix (UserAgent r) "GitHub-Hookshot/") then mkReply 401 "Access Denied"
     else if negb (String.eqb (ContentType r) "application/json")
     then mkReply 400 "Invalid Content-Type. Only json Supported"
     else mkReply 401 ("Access Denied: " ++ errorString err)%string, w)
  /\ (wellFormed r ->
      githubWebhookHandler r w = (mkReply 401 ("Access Denied: " ++ errorString err)%string, w))
  /\ (Status (githubWebhookHandler r w).1 = 401 \/ Status (githubWebhookHandler r w).1 = 400)
  /\ (forall event, githubWebhookHandler (withEvent event r) w = githubWebhookHandler r w).
Proof.
  intros Hn Hsig.
  assert (E : forall event,
             githubWebhookHandler (withEvent event r) w
             = (if negb (HasPrefix (UserAgent r) "GitHub-Hookshot/")
                then mkReply 401 "Access Denied"
                else if negb (String.eqb (ContentType r) "application/json")
                then mkReply 400 "Invalid Content-Type. Only json Supported"
                else mkReply 401 ("Access Denied: " ++ errorString err)%string, w)).
  { intros event. rewrite (handler_run (withEvent event r) w body request conf Hn).
    cbn [withEvent UserAgent ContentType].
    change (signatureOf (withEvent event r)) with (signatureOf r). rewrite Hsig.
    by repeat case_match. }
  assert (E0 : githubWebhookHandler r w = githubWebhookHandler (withEvent (XGitHubEvent r) r) w).
  { by destruct r. }
  split; [by rewrite E0, E|]. split; [|split].
  - intros [Hagent Htype]. rewrite E0, E, Hagent, Htype. done.
  - rewrite E0, E. cbn [fst]. repeat case_match; auto.
  - intros event. by rewrite E0, !E.
Qed.

(** C6, amended.  A request that passes the header checks and carries a
    valid signature for the repository it names starts a build ([go
    deployApplication], the only change to the trace) only when its event is
    [push], the repository is not private, the ref is [refs/heads/] followed
    by the default branch of the payload, and the build lock is free.  A ping
    is answered 200 [pong]; a push to a private repository is refused with
    500; a push to a public one whose ref does not split into [refs],
    [heads] and the default branch (a tag, another branch, a ref of another
    shape) is answered 200; all three leave the world as it was.  A push to
    the default branch is answered 200 and takes the lock and starts the
    build, or sets [Queued] when the lock is held. *)
Theorem build_only_for_push_to_default_branch (r : Request) (w : World Env) (body : string)
  (request : pushRequest) (conf : buildConfigT) :
  names r w body request conf ->
  wellFormed r ->
  checkSecret body (Secret conf) (signatureOf r) = None ->
  let event := XGitHubEvent r in
  let repo := Repository request in
  let reply := (githubWebhookHandler r w).1 in
  let w' := (githubWebhookHandler r w).2 in
  (event = "ping"%string -> reply = mkReply 200 "pong" /\ w' = w)
  /\ (event = "push"%string -> Private repo = true ->
      reply = mkReply 500 "Cannot Access Private Repos" /\ w' = w)
  /\ (event = "push"%string -> Private repo = false ->
      Split (Ref request) "/"%char <> ["refs"; "heads"; DefaultBranch repo]%string ->
      Status reply = 200 /\ w' = w)
  /\ (forall t, event = "push"%string -> Private repo = false ->
      Split (Ref request) "/"%char = ["refs"; "tags"; t]%string ->
      reply = ignoring ("Ignoring push to tag " ++ t)%string (DefaultBranch repo) /\ w' = w)
  /\ (event = "push"%string -> Private repo = false ->
      Split (Ref request) "/"%char = ["refs"; "heads"; DefaultBranch repo]%string ->
      Status reply = 200
      /\ containerStates w' = containerStates w
      /\ if BuildingMutex conf
         then trace w' = trace w
              /\ buildConfig w' = <[FullName repo := setQueued true conf]> (buildConfig w)
         else trace w' = trace w ++ [EvGo (FullName repo)]
              /\ buildConfig w'
                 = <[FullName repo := mkBuildConfig (Secret conf) true (Queued conf)]>
                     (buildConfig w))
  /\ (trace w' <> trace w ->
      event = "push"%string /\ Private repo = false
      /\ Ref request = ("refs/heads/" ++ DefaultBranch repo)%string
      /\ BuildingMutex conf = false
      /\ trace w' = trace w ++ [EvGo (FullName repo)]).
Proof.
  intros Hn [Hagent Htype] Hsig event repo reply w'.
  assert (E : githubWebhookHandler r w
              = afterSignature event request (buildConfig w) conf w).
  { rewrite (handler_run r w body request conf Hn), Hagent, Htype, Hsig. done. }
  unfold reply, w'. rewrite E. clear E reply w'.
  unfold afterSignature. fold repo.
  destruct (String.eqb_spec event "ping") as [Hping|Hping].
  { cbn [ret fst snd]. repeat split; try done; try (intros; congruence). }
  destruct (String.eqb_spec event "push") as [Hpush|Hpush]; cbn [negb].
  2:{ cbn [ret fst snd]. repeat split; try done; try (intros; congruence). }
  destruct (Private repo) eqn:Hpriv.
  { cbn [ret fst snd]. repeat split; try done; try (intros; congruence). }
  assert (Hign : forall what,
             let res := ret (ignoring what (DefaultBranch repo)) w in
             Split (Ref request) "/"%char <> ["refs"; "heads"; DefaultBranch repo]%string ->
             (forall t, Split (Ref request) "/"%char = ["refs"; "tags"; t]%string ->
                        what = ("Ignoring push to tag " ++ t)%string) ->
             ("ping"%string = event -> False) ->
             (event = "ping"%string -> res.1 = mkReply 200 "pong" /\ res.2 = w)
             /\ (event = "push"%string -> false = true ->
                 res.1 = mkReply 500 "Cannot Access Private Repos" /\ res.2 = w)
             /\ (event = "push"%string -> false = false ->
                 Split (Ref request) "/"%char <> ["refs"; "heads"; DefaultBranch repo]%string ->
                 Status res.1 = 200 /\ res.2 = w)
             /\ (forall t, event = "push"%string -> false = false ->
                 Split (Ref request) "/"%char = ["refs"; "tags"; t]%string ->
                 res.1 = ignoring ("Ignoring push to tag " ++ t)%string (DefaultBranch repo)
                 /\ res.2 = w)
             /\ (event = "push"%string -> false = false ->
                 Split (Ref request) "/"%char = ["refs"; "heads"; DefaultBranch repo]%string ->
                 Status res.1 = 200
                 /\ containerStates res.2 = containerStates w
                 /\ if BuildingMutex conf
                    then trace res.2 = trace w
                         /\ buildConfig res.2
                            = <[FullName repo := setQueued true conf]> (buildConfig w)
                    else trace res.2 = trace w ++ [EvGo (FullName repo)]
                         /\ buildConfig res.2
                            = <[FullName repo := mkBuildConfig (Secret conf) true (Queued conf)]>
                                (buildConfig w))
             /\ (trace res.2 <> trace w ->
                 event = "push"%string /\ false = false
                 /\ Ref request = ("refs/heads/" ++ DefaultBranch repo)%string
                 /\ BuildingMutex conf = false
                 /\ trace res.2 = trace w ++ [EvGo (FullName repo)])).
  { intros what res Hne Htag Hnp. unfold res. cbn [ret fst snd].
    split; [intros; congruence|]. split; [done|]. split; [done|].
    split; [intros t _ _ Ht; by rewrite (Htag t Ht)|]. split; done. }
  destruct (Split (Ref request) "/"%char) as [|ref0 [|ref1 [|ref2 [|ref3 rest]]]] eqn:Hsplit;
    try (apply Hign; [done | done | congruence]).
  destruct (String.eqb_spec ref0 "refs") as [->|Href0]; cbn [negb];
    [|apply Hign; [congruence | congruence | congruence]].
  destruct (String.eqb_spec ref1 "tags") as [->|Htags];
    [apply Hign; [congruence | by intros t [= <-] | congruence]|].
  destruct (String.eqb_spec ref1 "heads") as [->|Hheads]; cbn [negb];
    [|apply Hign; [congruence | congruence | congruence]].
  destruct (String.eqb_spec ref2 (DefaultBranch repo)) as [->|Hbranch]; cbn [negb];
    [|apply Hign; [congruence | congruence | congruence]].
  apply Split_three in Hsplit.
  unfold TryLock. destruct (BuildingMutex conf) eqn:Hlock; cbn [negb];
    rewrite !bind_run; cbn [putConfig call ret fst snd env trace containerStates buildConfig Status].
  - repeat split; try done; try (intros; congruence).
  - repeat split; try done; try (intros; congruence).
Qed.

End WebhookFacts.

(** ** The deploy pipeline *)

Section DeployFacts.
Import GoTime GoStrings Daemon Docker Api.
Context {Env : Type} {RT : Runtime Env} {CD : Codec}.

Lemma emits_trans (w w1 w2 : World Env) e1 e2 :
  emits w w1 e1 -> emits w1 w2 e2 -> emits w w2 (e1 ++ e2).
Proof.
  intros [A1 B1] [A2 B2]. split; [congruence|]. rewrite B2, B1. by rewrite app_assoc.
Qed.

Lemma extends_trans (w w1 w2 : World Env) e1 e2 :
  extends w w1 e1 -> extends w1 w2 e2 -> extends w w2 (e1 ++ e2).
Proof.
  intros [A1 B1] [A2 B2]. split; [congruence | by eapply emits_trans].
Qed.

Lemma extends_emits (w w' : World Env) evs : extends w w' evs -> emits w w' evs.
Proof. by intros [_ ?]. Qed.

Lemma extends_ask {A} (f : Env -> A * Env) w : extends w (ask f w).2 [].
Proof.
  unfold ask, extends, emits. destruct (f (env w)). simpl. by rewrite app_nil_r.
Qed.

Lemma extends_call {A} ev (f : Env -> A * Env) w : extends w (call ev f w).2 [ev].
Proof. unfold call, extends, emits. by destruct (f (env w)). Qed.

Lemma extends_runCmd argv (w : World Env) : extends w (runCmd argv w).2 [EvStart argv].
Proof.
  unfold runCmd. rewrite bind_run.
  pose proof (extends_call (EvStart argv) (cmdStart argv) w) as H.
  destruct (call (EvStart argv) (cmdStart argv) w) as [[e|] w1]; cbn [fst snd] in *; [done|].
  rewrite bind_run. cbn [ret snd].
  pose proof (extends_ask (cmdWait argv) w1) as H2.
  pose proof (extends_trans _ _ _ _ _ H H2) as H3. by rewrite app_nil_r in H3.
Qed.

Lemma pruneImage_run line seen (w : World Env) :
  pruneImage line seen w
  = match unmarshalImageInfo line with
    | inl _ => ((true, seen), w)
    | inr id =>
        if Contains seen id then ((true, seen), w)
        else ((true, seen ++ [id]), (runCmd ["docker"; "rmi"; id]%string w).2)
    end.
Proof.
  unfold pruneImage. destruct (unmarshalImageInfo line) as [err|id]; [done|].
  destruct (Contains seen id); [done|]. by rewrite bind_run.
Qed.

Lemma extends_pruneLoop lines :
  forall seen w,
    extends w (forRange lines pruneImage seen w).2 (map rmi (pruned lines seen)).
Proof.
  induction lines as [|line rest IH]; intros seen w.
  { cbn. split; [done|]. split; [done|]. by rewrite app_nil_r. }
  cbn [forRange pruned]. rewrite bind_run, pruneImage_run.
  destruct (unmarshalImageInfo line) as [err|id]; cbn [fst snd]; [apply IH|].
  destruct (Contains seen id); cbn [fst snd]; [apply IH|].
  cbn [map].
  change (rmi id :: map rmi (pruned rest (seen ++ [id])))
    with ([rmi id] ++ map rmi (pruned rest (seen ++ [id]))).
  eapply extends_trans; [apply extends_runCmd | apply IH].
Qed.

Lemma extends_pruneImages imagesRaw (w : World Env) :
  extends w (pruneImages imagesRaw w).2
    (map rmi (pruned (Split imagesRaw (ascii_of_N 10)) [])).
Proof. apply extends_pruneLoop. Qed.

Lemma pruned_spec lines :
  forall seen,
    NoDup (pruned lines seen)
    /\ forall id, In id (pruned lines seen) <->
                  (~ In id seen /\ exists line, In line lines /\ unmarshalImageInfo line = inr id).
Proof.
  induction lines as [|line rest IH]; intros seen.
  { split; [constructor|]. intros id. split; [done | by intros (_ & ? & [] & _)]. }
  cbn [pruned]. destruct (unmarshalImageInfo line) as [err|id0] eqn:Hline.
  - destruct (IH seen) as [Hnd Hin]. split; [done|]. intros id. rewrite Hin.
    split; intros (Hs & l & Hl & E); (split; [done|]); exists l.
    + split; [by right | done].
    + destruct Hl as [<-|Hl]; [congruence | done].
  - destruct (Contains seen id0) eqn:Hc.
    + apply Contains_In in Hc. destruct (IH seen) as [Hnd Hin]. split; [done|].
      intros id. rewrite Hin.
      split; intros (Hs & l & Hl & E); (split; [done|]); exists l.
      * split; [by right | done].
      * destruct Hl as [<-|Hl]; [|done]. rewrite Hline in E. injection E as <-. done.
    + assert (Hnot : ~ In id0 seen).
      { intros H. apply Contains_In in H. congruence. }
      destruct (IH (seen ++ [id0])) as [Hnd Hin]. split.
      * constructor; [|done]. rewrite list_elem_of_In, Hin. intros [H _]. apply H.
        apply in_or_app. right. by left.
      * intros id. cbn [In]. rewrite Hin. split.
        -- intros [<-|(Hs & l & Hl & E)].
           ++ split; [done|]. exists line. split; [by left | done].
           ++ split; [intros H; apply Hs, in_or_app; by left|].
              exists l. split; [by right | done].
        -- intros (Hs & l & Hl & E).
           destruct (decide (id0 = id)) as [->|Hne]; [by left | right].
           split.
           ++ intros H. apply in_app_or in H as [H|[H|[]]]; [done | congruence].
           ++ exists l. split; [|done].
              destruct Hl as [<-|Hl]; [|done]. rewrite Hline in E. congruence.
Qed.

Lemma In_snapshotIds imagesRaw id :
  In id (snapshotIds imagesRaw) <->
  exists line, In line (Split imagesRaw (ascii_of_N 10)) /\ unmarshalImageInfo line = inr id.
Proof.
  unfold snapshotIds. rewrite <- list_elem_of_In, list_elem_of_omap.
  split.
  - intros (line & Hl & E). exists line. rewrite <- list_elem_of_In. split; [done|].
    destruct (unmarshalImageInfo line); congruence.
  - intros (line & Hl & E). exists line. rewrite list_elem_of_In. split; [done|].
    by rewrite E.
Qed.

Lemma CheckContainer_error name (w w' : World Env) r e :
  CheckContainer name w = ((r, Some e), w') ->
  containerStates w' = containerStates w
  /\ buildConfig w' = buildConfig w
  /\ (trace w' = trace w ++ [EvHttp "GET" (inspectUrl name)]
      \/ trace w' = trace w /\ e = ErrorNotRegistered).
Proof.
  run_docker. fold (inspectUrl name).
  destruct (containerStates w !! name) as [st|] eqn:Hst; simpl.
  2:{ intros [= <- <- <-]. auto. }
  destruct (clientDo "GET" (inspectUrl name) (env w)) as [[err|resp] e1]; simpl.
  { intros [= <- <- <-]. auto. }
  destruct (StatusCode resp =? 404); simpl. { intros [= <- <- <-]. auto. }
  destruct (negb (StatusCode resp =? 200)); simpl. { intros [= <- <- <-]. auto. }
  destruct (decodeContainerState (Body resp)) as [err|result]; simpl.
  { intros [= <- <- <-]. auto. }
  rewrite Hst. destruct (timeNow e1) eqn:Ht. simpl. rewrite Ht. simpl. done.
Qed.

Lemma CheckContainer_emits name (w w' : World Env) r err :
  CheckContainer name w = ((r, err), w') ->
  err = None \/ err = Some ErrorDoesNotExist ->
  emits w w' [EvHttp "GET" (inspectUrl name)]
  /\ (err = Some ErrorDoesNotExist -> containerStates w' = containerStates w).
Proof.
  intros H [->| ->].
  - apply CheckContainer_ok in H as (st & resp & result & _ & _ & _ & _ & _ & _ & Hc & Ht).
    split; [by split | done].
  - apply CheckContainer_error in H as (Hs & Hc & [Ht|[_ [=]]]). split; [by split | done].
Qed.

Lemma StopContainer_emits name (w w' : World Env) :
  StopContainer name w = (None, w') ->
  emits w w' [EvHttp "POST" (commandUrl name "stop")].
Proof.
  unfold StopContainer. rewrite command_run.
  destruct (containerStates w !! name) as [st|] eqn:Hst; [|done].
  destruct (dockerExecCmd name "stop" w).1; [done|].
  rewrite (updateRunning_run _ _ _ _ st) by by rewrite dockerExecCmd_world.
  intros [= <-]. split; cbn [buildConfig trace]; by rewrite dockerExecCmd_world.
Qed.

Lemma StopContainer_config name (w : World Env) :
  buildConfig (StopContainer name w).2 = buildConfig w.
Proof.
  unfold StopContainer. rewrite command_run.
  destruct (containerStates w !! name) as [st|] eqn:Hst; [|done].
  destruct (dockerExecCmd name "stop" w).1; cbn [snd]; [by rewrite dockerExecCmd_world|].
  rewrite (updateRunning_run _ _ _ _ st) by by rewrite dockerExecCmd_world.
  cbn [snd buildConfig]. by rewrite dockerExecCmd_world.
Qed.

(** What the steps from the clone on leave in the trace, by where they end. *)
Lemma deploySteps_trace repoName containerName repoDir imagesRaw exists_
  (w : World Env) out (w' : World Env) :
  deploySteps repoName containerName repoDir imagesRaw exists_ w = (out, w') ->
  match out with
  | CouldNotCloneRepo => extends w w' [cloneCmd repoName repoDir]
  | CouldNotBuildImage =>
      extends w w' [cloneCmd repoName repoDir; buildCmd repoName repoDir]
  | Deployed =>
      emits w w'
        ([cloneCmd repoName repoDir; buildCmd repoName repoDir]
         ++ (if exists_ then [stopRequest containerName; rmCmd containerName] else [])
         ++ [runEvent repoName containerName; inspectRequest containerName]
         ++ map rmi (pruned (Split imagesRaw (ascii_of_N 10)) []))
  | _ => buildConfig w' = buildConfig w
  end.
Proof.
  unfold deploySteps. rewrite bind_run.
  pose proof (extends_runCmd
    ["git"; "clone"; ("https://github.com/" ++ repoName ++ ".git")%string; repoDir]%string w) as X1.
  destruct (runCmd _ w) as [ok1 w1]. cbn [fst snd] in *.
  destruct ok1; cbn [negb]; [|by intros [= <- <-]].
  rewrite bind_run.
  pose proof (extends_runCmd ["docker"; "build"; "-t"; repoName; repoDir]%string w1) as X2.
  destruct (runCmd _ w1) as [ok2 w2]. cbn [fst snd] in *.
  pose proof (extends_trans _ _ _ _ _ X1 X2) as X12. cbn [app] in X12.
  destruct ok2; cbn [negb]; [|by intros [= <- <-]].
  rewrite bind_run.
  assert (Hstop : forall w3 stopped,
             (if exists_
              then let* err := StopContainer containerName in
                   match err with
                   | Some _ => ret (Some CouldNotStopContainer)
                   | None =>
                       let* ok := runCmd ["docker"; "rm"; containerName]%string in
                       if negb ok then ret (Some CouldNotDeleteContainer) else ret None
                   end
              else ret None)%go w2 = (stopped, w3) ->
             buildConfig w3 = buildConfig w2
             /\ (stopped = None ->
                 emits w2 w3 (if exists_ then [stopRequest containerName; rmCmd containerName]
                              else []))
             /\ (stopped = None \/ stopped = Some CouldNotStopContainer
                 \/ stopped = Some CouldNotDeleteContainer)).
  { intros w3 stopped. destruct exists_.
    - rewrite bind_run.
      destruct (StopContainer containerName w2) as [[e|] w2a] eqn:Hs; cbn [fst snd ret].
      + intros [= <- <-]. split; [|split; [done | auto]].
        change w2a with (Some e, w2a).2. rewrite <- Hs. apply StopContainer_config.
      + apply StopContainer_emits in Hs. rewrite bind_run.
        pose proof (extends_runCmd ["docker"; "rm"; containerName]%string w2a) as X3.
        destruct (runCmd _ w2a) as [ok3 w2b]. cbn [fst snd] in *.
        pose proof (emits_trans _ _ _ _ _ Hs (extends_emits _ _ _ X3)) as X4.
        destruct ok3; cbn [negb ret]; intros [= <- <-]; (split; [apply X4|]);
          (split; [|auto]); [|done].
        intros _. exact X4.
    - cbn [ret]. intros [= <- <-]. split; [done|]. split; [|auto]. intros _. split; [done|].
      by rewrite app_nil_r. }
  match goal with
  | |- context [(if exists_ then ?a else ?b) w2] =>
      destruct ((if exists_ then a else b) w2) as [stopped w3] eqn:Hs3
  end.
  destruct (Hstop w3 stopped eq_refl) as (Hc3 & He3 & Hcases). cbn [fst snd].
  destruct stopped as [o|].
  { cbn [ret]. intros [= <- <-]. destruct X12 as (_ & Hc & _).
    destruct Hcases as [[=]|[[= ->]|[= ->]]]; by rewrite Hc3, Hc. }
  specialize (He3 eq_refl).
  rewrite bind_run.
  pose proof (extends_runCmd
    ["docker"; "run"; "-d"; "--name"; containerName; (repoName ++ ":local")%string]%string w3) as X5.
  destruct (runCmd _ w3) as [ok5 w5]. cbn [fst snd] in *.
  pose proof (emits_trans _ _ _ _ _
                (emits_trans _ _ _ _ _ (extends_emits _ _ _ X12) He3)
                (extends_emits _ _ _ X5)) as X125.
  destruct ok5; cbn [negb ret]; [|intros [= <- <-]; apply X125].
  rewrite bind_run.
  destruct (CheckContainer containerName w5) as [[r err] w6] eqn:Hc6. cbn [fst snd].
  destruct err as [e|].
  { apply CheckContainer_error in Hc6 as (_ & Hc & _).
    destruct e; cbn [ret]; intros [= <- <-]; rewrite Hc; apply X125. }
  apply CheckContainer_emits in Hc6 as [X6 _]; [|by left].
  rewrite bind_run. cbn [ret]. intros [= <- <-].
  pose proof (extends_emits _ _ _ (extends_pruneImages imagesRaw w6)) as X7.
  pose proof (emits_trans _ _ _ _ _ (emits_trans _ _ _ _ _ X125 X6) X7) as X.
  unfold cloneCmd, buildCmd, runEvent, inspectRequest.
  rewrite <- !app_assoc in X. exact X.
Qed.

Lemma deployRun_run repoName (w : World Env) :
  deployRun repoName w
  = match (CheckContainer (RepoNameToContainerName repoName) w).1.2 with
    | None => afterCheck repoName true (CheckContainer (RepoNameToContainerName repoName) w).2
    | Some ErrorDoesNotExist =>
        afterCheck repoName false (CheckContainer (RepoNameToContainerName repoName) w).2
    | Some _ =>
        (CouldNotGetContainerState, (CheckContainer (RepoNameToContainerName repoName) w).2)
    end.
Proof.
  unfold deployRun. rewrite bind_run.
  destruct (CheckContainer (RepoNameToContainerName repoName) w) as [[r [e|]] wc];
    cbn [fst snd]; [|done]. by destruct e.
Qed.

Lemma afterCheck_shape repoName found (wc : World Env) out (w' : World Env) :
  afterCheck repoName found wc = (out, w') ->
  (endedEarly out
   /\ exists evs, emits wc w' evs /\ forall path, ~ In (EvRemoveAll path) evs)
  \/ exists imagesRaw repoDir wd w2,
       (exists e, (readAll (imagesArgv repoName) e).1 = inr imagesRaw)
       /\ (exists e, (osMkdirTemp (scratchPattern repoName) e).1 = inr repoDir)
       /\ extends wc wd [imagesCmd repoName; EvMkdirTemp (scratchPattern repoName)]
       /\ deploySteps repoName (RepoNameToContainerName repoName) repoDir imagesRaw found wd
          = (out, w2)
       /\ extends w2 w' [EvRemoveAll repoDir].
Proof.
  unfold afterCheck. cbv zeta. fold (imagesArgv repoName) (scratchPattern repoName).
  set (containerName := RepoNameToContainerName repoName).
  rewrite bind_run.
  pose proof (extends_ask (cmdStdoutPipe (imagesArgv repoName)) wc) as X1.
  destruct (ask (cmdStdoutPipe (imagesArgv repoName)) wc) as [[e|] w1]; cbn [fst snd] in *.
  { intros [= <- <-]. left. split; [unfold endedEarly; auto|].
    eexists. split; [apply extends_emits, X1 | by intros path []]. }
  rewrite bind_run.
  pose proof (extends_call (EvStart (imagesArgv repoName)) (cmdStart (imagesArgv repoName)) w1)
    as X2.
  pose proof (extends_trans _ _ _ _ _ X1 X2) as X12. cbn [app] in X12.
  destruct (call _ _ w1) as [[e|] w2]; cbn [fst snd] in *.
  { intros [= <- <-]. left. split; [unfold endedEarly; auto|].
    eexists. split; [apply extends_emits, X12 | intros path [H|[]]; discriminate H]. }
  rewrite bind_run.
  pose proof (extends_ask (readAll (imagesArgv repoName)) w2) as X3.
  assert (Hread : exists e, (readAll (imagesArgv repoName) e).1
                            = (ask (readAll (imagesArgv repoName)) w2).1).
  { exists (env w2). unfold ask. by destruct (readAll _ _). }
  pose proof (extends_trans _ _ _ _ _ X12 X3) as X13. cbn [app] in X13.
  destruct (ask (readAll (imagesArgv repoName)) w2) as [[e|imagesRaw] w3]; cbn [fst snd] in *.
  { intros [= <- <-]. left. split; [unfold endedEarly; auto|].
    eexists. split; [apply extends_emits, X13 | intros path [H|[]]; discriminate H]. }
  rewrite bind_run.
  pose proof (extends_ask (cmdWait (imagesArgv repoName)) w3) as X4.
  pose proof (extends_trans _ _ _ _ _ X13 X4) as X14. cbn [app] in X14.
  destruct (ask (cmdWait (imagesArgv repoName)) w3) as [imageErr w4]; cbn [fst snd] in *.
  rewrite bind_run.
  pose proof (extends_call (EvMkdirTemp (scratchPattern repoName))
                (osMkdirTemp (scratchPattern repoName)) w4) as X5.
  assert (Hmade : exists e, (osMkdirTemp (scratchPattern repoName) e).1
                            = (call (EvMkdirTemp (scratchPattern repoName))
                                 (osMkdirTemp (scratchPattern repoName)) w4).1).
  { exists (env w4). unfold call. by destruct (osMkdirTemp _ _). }
  pose proof (extends_trans _ _ _ _ _ X14 X5) as X15. cbn [app] in X15.
  destruct (call _ _ w4) as [[e|repoDir] w5]; cbn [fst snd] in *.
  { intros [= <- <-]. left. split; [unfold endedEarly; auto|].
    eexists. split; [apply extends_emits, X15 | intros path [H|[H|[]]]; discriminate H]. }
  rewrite bind_run.
  destruct (deploySteps repoName containerName repoDir imagesRaw found w5) as [o w6] eqn:Hsteps.
  cbn [fst snd]. rewrite bind_run. cbn [ret].
  pose proof (extends_call (EvRemoveAll repoDir) (osRemoveAll repoDir) w6) as X7.
  intros [= <- <-]. right. exists imagesRaw, repoDir, w5, w6.
  split; [done|]. split; [done|]. split; [exact X15|]. split; [done | exact X7].
Qed.

Lemma deployRun_shape repoName (w : World Env) out (w' : World Env) :
  deployRun repoName w = (out, w') ->
  (endedEarly out
   /\ buildConfig w' = buildConfig w
   /\ forall path, ~ In (EvRemoveAll path) (skipn (length (trace w)) (trace w')))
  \/ exists found imagesRaw repoDir wd w2,
       ranInScratch repoName w w' out found imagesRaw repoDir wd w2.
Proof.
  rewrite deployRun_run.
  set (containerName := RepoNameToContainerName repoName).
  destruct (CheckContainer containerName w) as [[r err] wc] eqn:Hc. cbn [fst snd].
  assert (Hfound : forall found : bool,
             err = (if found then None else Some ErrorDoesNotExist) ->
             afterCheck repoName found wc = (out, w') ->
             (endedEarly out
              /\ buildConfig w' = buildConfig w
              /\ forall path, ~ In (EvRemoveAll path) (skipn (length (trace w)) (trace w')))
             \/ exists found imagesRaw repoDir wd w2,
                  ranInScratch repoName w w' out found imagesRaw repoDir wd w2).
  { intros found Herr Hk.
    assert (E0 : emits w wc [inspectRequest containerName]).
    { eapply CheckContainer_emits; [exact Hc|]. destruct found; auto. }
    apply afterCheck_shape in Hk
      as [(Hearly & evs & Hev & Hno)|(imagesRaw & repoDir & wd & w2 & H1 & H2 & H3 & H4 & H5)].
    - left. split; [done|]. destruct (emits_trans _ _ _ _ _ E0 Hev) as [Hb Ht].
      split; [done|]. intros path. rewrite Ht, drop_app_length.
      intros [H|H]; [discriminate H | by apply (Hno path)].
    - right. exists found, imagesRaw, repoDir, wd, w2.
      unfold ranInScratch. fold containerName. rewrite Hc. cbn [fst snd]. done. }
  destruct err as [e|].
  - destruct e; try (intros [= <- <-]; left;
      apply CheckContainer_error in Hc as (_ & Hb & [Ht|[Ht _]]);
      (split; [unfold endedEarly; auto|]); (split; [done|]); intros path; rewrite Ht;
      [rewrite drop_app_length; intros [H|[]]; discriminate H
      | rewrite drop_all; intros []]).
    apply (Hfound false eq_refl).
  - apply (Hfound true eq_refl).
Qed.

(** *** The trace only grows *)

Lemma grows_bind {A B} (m : M Env A) (k : A -> M Env B) :
  grows m -> (forall a, grows (k a)) -> grows (bind m k).
Proof.
  intros Hm Hk w. rewrite bind_run.
  destruct (Hm w) as [e1 H1]. destruct (Hk (m w).1 (m w).2) as [e2 H2].
  exists (e1 ++ e2). by rewrite H2, H1, app_assoc.
Qed.

Lemma grows_ret {A} (a : A) : grows (ret a : M Env A).
Proof. intros w. exists []. by rewrite app_nil_r. Qed.

Lemma grows_extends {A} (m : M Env A) evs :
  (forall w, extends w (m w).2 (evs w)) -> grows m.
Proof. intros H w. exists (evs w). apply H. Qed.

Lemma grows_runCmd argv : grows (runCmd argv).
Proof. apply (grows_extends _ (fun _ => [EvStart argv])), extends_runCmd. Qed.

Lemma grows_StopContainer name : grows (StopContainer name).
Proof.
  intros w. unfold StopContainer. rewrite command_run.
  destruct (containerStates w !! name) as [st|] eqn:Hst;
    [|exists []; by rewrite app_nil_r].
  exists [EvHttp "POST" (commandUrl name "stop")].
  destruct (dockerExecCmd name "stop" w).1; cbn [snd]; [by rewrite dockerExecCmd_world|].
  rewrite (updateRunning_run _ _ _ _ st) by by rewrite dockerExecCmd_world.
  cbn [snd trace]. by rewrite dockerExecCmd_world.
Qed.

Lemma grows_CheckContainer name : grows (CheckContainer name).
Proof.
  intros w. destruct (CheckContainer name w) as [[r [e|]] w'] eqn:Hc; cbn [snd].
  - apply CheckContainer_error in Hc as (_ & _ & [Ht|[Ht _]]); [by eexists|].
    exists []. by rewrite app_nil_r.
  - apply CheckContainer_ok in Hc as (? & ? & ? & _ & _ & _ & _ & _ & _ & _ & Ht). by eexists.
Qed.

Lemma grows_pruneImages imagesRaw : grows (pruneImages imagesRaw).
Proof.
  apply (grows_extends _ (fun _ => map rmi (pruned (Split imagesRaw (ascii_of_N 10)) []))).
  intros w. apply extends_pruneImages.
Qed.

Lemma grows_deploySteps repoName containerName repoDir imagesRaw found :
  grows (deploySteps repoName containerName repoDir imagesRaw found).
Proof.
  unfold deploySteps.
  apply grows_bind; [apply grows_runCmd|]. intros ok1.
  destruct (negb ok1); [apply grows_ret|].
  apply grows_bind; [apply grows_runCmd|]. intros ok2.
  destruct (negb ok2); [apply grows_ret|].
  apply grows_bind.
  { destruct found; [|apply grows_ret].
    apply grows_bind; [apply grows_StopContainer|]. intros [e|]; [apply grows_ret|].
    apply grows_bind; [apply grows_runCmd|]. intros ok3.
    destruct (negb ok3); apply grows_ret. }
  intros [o|]; [apply grows_ret|].
  apply grows_bind; [apply grows_runCmd|]. intros ok4.
  destruct (negb ok4); [apply grows_ret|].
  apply grows_bind; [apply grows_CheckContainer|]. intros [r [e|]].
  { destruct e; apply grows_ret. }
  apply grows_bind; [apply grows_pruneImages|]. intros seen. apply grows_ret.
Qed.

(** C9, amended.  A run of the deploy either ends before a scratch directory
    was made, and then removes none, or ends with [os.RemoveAll] of the
    directory [os.MkdirTemp] gave it, wherever it failed or succeeded.  When
    the clone or the image build fails, the run has sent the runtime one
    inspect and nothing else, has started the image listing, the clone and
    (when the clone went through) the build and no other process, so the
    container is neither stopped, removed nor replaced; the build
    configuration is untouched; and the cache is as the opening inspect left
    it: unchanged when the container does not exist, and otherwise changed in
    the container's entry only, which holds the flags and the address of the
    inspect answer, a new refresh time and the [lastUsed] it had. *)
Theorem failed_build_leaves_the_container (repoName : string) (w w' : World Env)
  (out : Outcome) :
  deployRun repoName w = (out, w') ->
  let containerName := RepoNameToContainerName repoName in
  let started := skipn (length (trace w)) (trace w') in
  ((endedEarly out /\ forall path, ~ In (EvRemoveAll path) started)
   \/ exists repoDir before,
        (exists e, (osMkdirTemp (scratchPattern repoName) e).1 = inr repoDir)
        /\ In (EvMkdirTemp (scratchPattern repoName)) before
        /\ started = before ++ [EvRemoveAll repoDir])
  /\ (out = CouldNotCloneRepo \/ out = CouldNotBuildImage ->
      exists repoDir,
        started
        = [inspectRequest containerName; imagesCmd repoName;
           EvMkdirTemp (scratchPattern repoName); cloneCmd repoName repoDir]
          ++ (match out with CouldNotBuildImage => [buildCmd repoName repoDir] | _ => [] end)
          ++ [EvRemoveAll repoDir]
        /\ ~ In (stopRequest containerName) started
        /\ ~ In (rmCmd containerName) started
        /\ ~ In (runEvent repoName containerName) started
        /\ buildConfig w' = buildConfig w
        /\ containerStates w' = containerStates (CheckContainer containerName w).2
        /\ ((CheckContainer containerName w).1.2 = Some ErrorDoesNotExist
            /\ containerStates w' = containerStates w
            \/ exists st resp result,
                 containerStates w !! containerName = Some st
                 /\ (clientDo "GET" (inspectUrl containerName) (env w)).1 = inr resp
                 /\ decodeContainerState (Body resp) = inr result
                 /\ containerStates w'
                    = <[containerName :=
                          mkContainerState (State_Running result) (State_Paused result)
                            (LastUsed st) (addressOf result)
                            (Some (timeNow (clientDo "GET" (inspectUrl containerName)
                                              (env w)).2).1)]> (containerStates w))).
Proof.
  intros Hrun containerName started.
  destruct (deployRun_shape _ _ _ _ Hrun)
    as [(Hearly & Hb & Hno)|(found & imagesRaw & repoDir & wd & w2 & Hshape)].
  { split; [by left|]. intros [->| ->]; destruct Hearly as [H|[H|[H|H]]]; discriminate H. }
  destruct Hshape as (Hfound & Hread & Hmade & E0 & E1 & Hsteps & E2).
  fold containerName in Hfound, E0, E1, Hsteps.
  destruct (CheckContainer containerName w) as [[r err] wc] eqn:Hc. cbn [fst snd] in *.
  split.
  - right. destruct (grows_deploySteps repoName containerName repoDir imagesRaw found wd)
      as [mid Hmid]. rewrite Hsteps in Hmid. cbn [snd] in Hmid.
    exists repoDir, ([inspectRequest containerName; imagesCmd repoName;
                      EvMkdirTemp (scratchPattern repoName)] ++ mid).
    split; [done|]. split; [apply in_or_app; left; right; right; by left|].
    unfold started. destruct E2 as (_ & _ & ->). rewrite Hmid.
    destruct E1 as (_ & _ & ->). destruct E0 as (_ & ->).
    rewrite <- !app_assoc. rewrite drop_app_length. done.
  - intros Hout. exists repoDir.
    pose proof (deploySteps_trace _ _ _ _ _ _ _ _ Hsteps) as Hst.
    assert (Hext : extends wd w2
                     ([cloneCmd repoName repoDir]
                      ++ match out with
                         | CouldNotBuildImage => [buildCmd repoName repoDir]
                         | _ => []
                         end)).
    { destruct Hout as [->| ->]; exact Hst. }
    clear Hst.
    assert (Hstarted : started
                       = [inspectRequest containerName; imagesCmd repoName;
                          EvMkdirTemp (scratchPattern repoName); cloneCmd repoName repoDir]
                         ++ (match out with
                             | CouldNotBuildImage => [buildCmd repoName repoDir]
                             | _ => []
                             end)
                         ++ [EvRemoveAll repoDir]).
    { unfold started. destruct E2 as (_ & _ & ->). destruct Hext as (_ & _ & ->).
      destruct E1 as (_ & _ & ->). destruct E0 as (_ & ->).
      rewrite <- !app_assoc. rewrite drop_app_length. done. }
    assert (Hcache : containerStates w' = containerStates wc).
    { destruct E2 as (-> & _). destruct Hext as (-> & _). by destruct E1 as (-> & _). }
    split; [done|]. rewrite Hstarted.
    split; [|split; [|split]].
    1-3: destruct Hout as [->| ->]; cbn [app];
      intros H; repeat (destruct H as [H|H]; [discriminate H|]); done.
    split. { destruct E2 as (_ & -> & _). destruct Hext as (_ & -> & _).
             destruct E1 as (_ & -> & _). by destruct E0 as (-> & _). }
    split; [done|]. rewrite Hcache. subst err. destruct found.
    + right. apply CheckContainer_ok in Hc
        as (st & resp & result & H1 & H2 & _ & H4 & _ & H6 & _).
      exists st, resp, result. done.
    + left. split; [done|]. by apply CheckContainer_error in Hc as (-> & _).
Qed.

Lemma rmi_inj id1 id2 : rmi id1 = rmi id2 -> id1 = id2.
Proof. by intros [= ->]. Qed.

(** C8, amended.  After a deploy that succeeded, the processes and requests
    of the run are the inspect, the image listing, the scratch directory, the
    clone, the build, the stop and removal of the old container when there
    was one, the new container, a second inspect, then one [docker rmi] for
    every id of the listing taken before the build, in the order the ids first
    appear and each id once, and the removal of the scratch directory.  The id
    of the image just built is not looked at: an id is removed exactly when
    the listing had it. *)
Theorem prune_removes_every_listed_id (repoName : string) (w w' : World Env) :
  deployRun repoName w = (Deployed, w') ->
  let containerName := RepoNameToContainerName repoName in
  let started := skipn (length (trace w)) (trace w') in
  exists (found : bool) (imagesRaw repoDir : string),
    let removed := pruned (Split imagesRaw (ascii_of_N 10)) [] in
    (exists e, (readAll (imagesArgv repoName) e).1 = inr imagesRaw)
    /\ started
       = [inspectRequest containerName; imagesCmd repoName;
          EvMkdirTemp (scratchPattern repoName);
          cloneCmd repoName repoDir; buildCmd repoName repoDir]
         ++ (if found then [stopRequest containerName; rmCmd containerName] else [])
         ++ [runEvent repoName containerName; inspectRequest containerName]
         ++ map rmi removed
         ++ [EvRemoveAll repoDir]
    /\ NoDup removed
    /\ (forall id, In id removed <-> In id (snapshotIds imagesRaw))
    /\ (forall id, In (rmi id) started <-> In id (snapshotIds imagesRaw)).
Proof.
  intros Hrun containerName started.
  destruct (deployRun_shape _ _ _ _ Hrun)
    as [(Hearly & _)|(found & imagesRaw & repoDir & wd & w2 & Hshape)].
  { destruct Hearly as [H|[H|[H|H]]]; discriminate H. }
  destruct Hshape as (Hfound & Hread & Hmade & E0 & E1 & Hsteps & E2).
  fold containerName in Hfound, E0, E1, Hsteps.
  exists found, imagesRaw, repoDir. cbv zeta.
  set (removed := pruned (Split imagesRaw (ascii_of_N 10)) []).
  pose proof (deploySteps_trace _ _ _ _ _ _ _ _ Hsteps) as Hst. cbv beta iota in Hst.
  fold removed in Hst.
  destruct (pruned_spec (Split imagesRaw (ascii_of_N 10)) []) as [Hnd Hin].
  fold removed in Hnd, Hin.
  assert (Hids : forall id, In id removed <-> In id (snapshotIds imagesRaw)).
  { intros id. rewrite Hin, In_snapshotIds.
    split; [by intros [_ ?] | intros H; split; [by intros [] | done]]. }
  assert (Hstarted : started
                     = [inspectRequest containerName; imagesCmd repoName;
                        EvMkdirTemp (scratchPattern repoName);
                        cloneCmd repoName repoDir; buildCmd repoName repoDir]
                       ++ (if found then [stopRequest containerName; rmCmd containerName]
                           else [])
                       ++ [runEvent repoName containerName; inspectRequest containerName]
                       ++ map rmi removed
                       ++ [EvRemoveAll repoDir]).
  { unfold started. destruct E2 as (_ & _ & ->). destruct Hst as (_ & ->).
    destruct E1 as (_ & _ & ->). destruct E0 as (_ & ->).
    rewrite <- !app_assoc. rewrite drop_app_length. done. }
  split; [done|]. split; [done|]. split; [done|]. split; [done|].
  intros id. rewrite <- Hids, Hstarted. split.
  - intros H. cbn [app] in H.
    repeat (destruct H as [H|H]; [discriminate H|]).
    apply in_app_or in H as [H|H].
    { destruct found; cbn in H; repeat (destruct H as [H|H]; [discriminate H|]); done. }
    cbn [app] in H. repeat (destruct H as [H|H]; [discriminate H|]).
    apply in_app_or in H as [H|[H|[]]]; [|discriminate H].
    apply in_map_iff in H as (id' & E & H). apply rmi_inj in E. by subst.
  - intros H. apply in_or_app. right. apply in_or_app. right. apply in_or_app. right.
    apply in_or_app. left. by apply in_map.
Qed.

(** *** The deferred function and the nested call *)

Lemma deployRun_config repoName (w : World Env) :
  buildConfig (deployRun repoName w).2 = buildConfig w.
Proof.
  destruct (deployRun repoName w) as [out w'] eqn:Hrun. cbn [snd].
  destruct (deployRun_shape _ _ _ _ Hrun)
    as [(_ & Hb & _)|(found & imagesRaw & repoDir & wd & w2 & Hshape)]; [done|].
  destruct Hshape as (_ & _ & _ & E0 & E1 & Hsteps & E2).
  assert (Hc : buildConfig w2 = buildConfig wd).
  { pose proof (deploySteps_trace _ _ _ _ _ _ _ _ Hsteps) as Hst.
    destruct out; try exact Hst; try apply Hst. }
  destruct E2 as (_ & -> & _). rewrite Hc. destruct E1 as (_ & -> & _). by destruct E0 as (-> & _).
Qed.

Lemma deployDeferred_run repoName (w : World Env) conf :
  buildConfig w !! repoName = Some conf ->
  deployDeferred repoName w
  = (Queued conf,
     mkWorld (containerStates w)
       (<[repoName := if Queued conf then setQueued false conf else Unlock conf]>
          (buildConfig w))
       (trace w) (env w)).
Proof.
  intros H. unfold deployDeferred, bind, getConfig. rewrite H. by destruct (Queued conf).
Qed.

(** In a world no other goroutine writes to, [deployApplication] returns
    with two nested calls at most: it runs once, and once more when [Queued]
    was set, and leaves the lock free and [Queued] clear. *)
Lemma deployApplication_returns (fuel : nat) repoName (w : World Env) conf :
  buildConfig w !! repoName = Some conf ->
  exists outs,
    (deployApplication (S (S fuel)) repoName w).1 = Some outs
    /\ length outs = (if Queued conf then 2%nat else 1%nat)
    /\ buildConfig (deployApplication (S (S fuel)) repoName w).2 !! repoName
       = Some (mkBuildConfig (Secret conf) false false).
Proof.
  intros Hconf.
  assert (Hstep : forall n (w0 : World Env) conf0,
             buildConfig w0 !! repoName = Some conf0 ->
             deployApplication (S n) repoName w0
             = (let w1 := (deployRun repoName w0).2 in
                let w2 := (deployDeferred repoName w1).2 in
                if Queued conf0
                then (option_map (cons (deployRun repoName w0).1)
                        (deployApplication n repoName w2).1,
                      (deployApplication n repoName w2).2)
                else (Some [(deployRun repoName w0).1], w2))).
  { intros n w0 conf0 H0. cbn [deployApplication]. unfold bind at 1, getConfig at 1.
    rewrite H0. rewrite bind_run, bind_run.
    assert (H1 : buildConfig (deployRun repoName w0).2 !! repoName = Some conf0)
      by by rewrite deployRun_config.
    rewrite (deployDeferred_run _ _ _ H1). cbn [fst snd].
    destruct (Queued conf0); [|done]. by rewrite bind_run. }
  rewrite (Hstep _ _ _ Hconf). cbv zeta.
  assert (H1 : buildConfig (deployRun repoName w).2 !! repoName = Some conf)
    by by rewrite deployRun_config.
  rewrite (deployDeferred_run _ _ _ H1).
  destruct (Queued conf) eqn:Hq; cbn [fst snd].
  - set (w2 := mkWorld _ _ _ _).
    assert (H2 : buildConfig w2 !! repoName = Some (setQueued false conf))
      by apply lookup_insert_eq.
    rewrite (Hstep _ _ _ H2). cbv zeta. cbn [setQueued Queued fst snd option_map].
    eexists. split; [done|]. split; [done|].
    assert (H3 : buildConfig (deployRun repoName w2).2 !! repoName
                 = Some (setQueued false conf)) by by rewrite deployRun_config.
    rewrite (deployDeferred_run _ _ _ H3). cbn [snd buildConfig setQueued Queued].
    by rewrite lookup_insert_eq.
  - eexists. split; [done|]. split; [done|]. cbn [buildConfig].
    rewrite lookup_insert_eq. unfold Unlock. by rewrite Hq.
Qed.

End DeployFacts.

(** ** The goroutines around the build lock *)

Section CoordinatorFacts.
Import Daemon Coordinator.

Lemma step_invariant s st s' :
  lockInvariant s -> step s st = Some s' -> lockInvariant s'.
Proof.
  unfold lockInvariant, holders. destruct s as [[secret locked queued] b u f r].
  destruct st; cbn; unfold Api.TryLock; cbn.
  - destruct locked; cbn; intros H [= <-]; cbn in *; lia.
  - destruct f; [done|]. by intros H [= <-].
  - destruct locked; cbn; [done|]. intros H [= <-]; cbn in *; lia.
  - destruct b; [done|]. destruct queued; intros H [= <-]; cbn in *; lia.
  - destruct u; [done|]. destruct locked; intros H [= <-]; cbn in *; lia.
Qed.

Lemma exec_invariant sched : forall s s',
  lockInvariant s -> exec s sched = Some s' -> lockInvariant s'.
Proof.
  induction sched as [|st rest IH]; intros s s' Hinv; cbn.
  - by intros [= <-].
  - destruct (step s st) as [s1|] eqn:Hs; [|done].
    apply IH. by eapply step_invariant.
Qed.

(** However the goroutines interleave, at most one is in the body of
    [deployApplication], and only while the lock is held; a goroutine on its
    way to [Unlock] holds the lock alone. *)
Theorem one_deploy_at_a_time (secret : string) (sched : list Step) (s : Sys) :
  exec (initial secret) sched = Some s ->
  (inBody s <= 1)%nat
  /\ (inBody s + unlocking s <= 1)%nat
  /\ (inBody s = 1%nat -> BuildingMutex (conf s) = true)
  /\ (BuildingMutex (conf s) = false -> inBody s = 0%nat /\ unlocking s = 0%nat).
Proof.
  intros H. assert (Hinv : lockInvariant s).
  { eapply exec_invariant; [|exact H]. done. }
  unfold lockInvariant, holders in Hinv.
  destruct (BuildingMutex (conf s)); repeat split; try lia; try done.
Qed.

Lemma exec_app s sched1 sched2 :
  exec s (sched1 ++ sched2)
  = match exec s sched1 with Some s1 => exec s1 sched2 | None => None end.
Proof.
  revert s. induction sched1 as [|st rest IH]; intros s; [done|]. cbn.
  destruct (step s st); [apply IH | done].
Qed.

Lemma one_queued_request (s : Sys) :
  building s = true -> flagging s = 0%nat ->
  exec s queuedRequest = Some (afterQueued s).
Proof.
  destruct s as [[secret locked queued] b u f r]. unfold building, afterQueued. cbn.
  destruct locked; [|done]. by intros _ ->.
Qed.

Lemma afterQueued_building (s : Sys) : building s = true -> building (afterQueued s) = true.
Proof. by destruct s as [[secret locked queued] b u f r]. Qed.

Lemma afterQueued_twice (s : Sys) : afterQueued (afterQueued s) = afterQueued s.
Proof. by destruct s as [[secret locked queued] b u f r]. Qed.

(** Whole requests that arrive while a build is in flight leave [Queued] set
    and nothing else changed. *)
Lemma queued_requests (n : nat) (s : Sys) :
  building s = true -> flagging s = 0%nat -> (0 < n)%nat ->
  exec s (concat (repeat queuedRequest n)) = Some (afterQueued s).
Proof.
  intros Hb Hf Hn. destruct n as [|n]; [lia|]. clear Hn.
  revert s Hb Hf. induction n as [|n IH]; intros s Hb Hf.
  - cbn [repeat concat]. rewrite app_nil_r. by apply one_queued_request.
  - change (concat (repeat queuedRequest (S (S n))))
      with (queuedRequest ++ concat (repeat queuedRequest (S n))).
    rewrite exec_app, (one_queued_request s Hb Hf).
    rewrite IH; [by rewrite afterQueued_twice | by apply afterQueued_building | done].
Qed.

(** The build lock coalesces the requests whose write of [Queued] comes
    before the deferred function reads it: after any number of them, the
    build in flight ends in one more run under the same lock, and that run
    ends in the release of the lock. *)
Theorem queued_requests_run_once_more (n : nat) (s : Sys) :
  building s = true -> flagging s = 0%nat -> Queued (conf s) = false -> (0 < n)%nat ->
  exists s1 s2,
    exec s (concat (repeat queuedRequest n) ++ [BodyReturns]) = Some s1
    /\ building s1 = true /\ Queued (conf s1) = false /\ runs s1 = S (runs s)
    /\ exec s1 [BodyReturns; DeferredUnlock] = Some s2
    /\ idle s2 = true /\ Queued (conf s2) = false /\ runs s2 = S (runs s).
Proof.
  intros Hb Hf Hq Hn. rewrite exec_app, (queued_requests n s Hb Hf Hn).
  destruct s as [[secret locked queued] b u f r]. unfold building, afterQueued in *. cbn in *.
  destruct locked; [|done]. destruct b as [|[|b]]; try done. destruct u; [|done].
  cbn. eexists _, _. repeat split.
Qed.

(** The steps are those of the functions: what the deferred function of
    [deployApplication] does to a configuration is [BodyReturns], followed by
    [DeferredUnlock] when [Queued] was clear. *)
Lemma deferred_function_steps {Env : Type} repoName (w : World Env) (s : Sys) :
  buildConfig w !! repoName = Some (conf s) ->
  inBody s = 1%nat ->
  exists s',
    exec s (if Queued (conf s) then [BodyReturns] else [BodyReturns; DeferredUnlock]) = Some s'
    /\ (Api.deployDeferred repoName w).1 = Queued (conf s)
    /\ buildConfig (Api.deployDeferred repoName w).2 !! repoName = Some (conf s').
Proof.
  intros Hconf Hb. unfold Api.deployDeferred, bind, getConfig. rewrite Hconf.
  destruct s as [[secret locked queued] b u f r]. cbn in *. subst b.
  destruct queued; cbn; eexists; (split; [done|]); (split; [done|]);
    by rewrite lookup_insert_eq.
Qed.

(** And what the handler does to it once the ref is the default branch is
    [HandlerTryLock], followed by [HandlerSetQueued] when the lock was held. *)
Lemma handler_steps {Env : Type} {RT : Runtime Env} {CD : Codec} event request
  (w : World Env) (s : Sys) :
  buildConfig w !! FullName (Repository request) = Some (conf s) ->
  flagging s = 0%nat ->
  event = "push"%string ->
  Private (Repository request) = false ->
  GoStrings.Split (Ref request) "/"%char
  = ["refs"; "heads"; DefaultBranch (Repository request)]%string ->
  exists s',
    exec s (if BuildingMutex (conf s) then queuedRequest else [HandlerTryLock]) = Some s'
    /\ buildConfig (Api.afterSignature event request (buildConfig w) (conf s) w).2
       !! FullName (Repository request) = Some (conf s')
    /\ runs s' = (if BuildingMutex (conf s) then runs s else S (runs s)).
Proof.
  intros Hconf Hf -> Hpriv Hsplit. unfold Api.afterSignature.
  rewrite Hpriv, Hsplit. cbn [String.eqb Ascii.eqb Bool.eqb negb].
  rewrite String.eqb_refl. cbn [negb].
  destruct s as [[secret locked queued] b u f r]. cbn in Hconf, Hf |- *. subst f.
  unfold Api.TryLock. cbn [BuildingMutex].
  destruct locked; cbn [negb]; rewrite !bind_run;
    cbn [putConfig call ret fst snd buildConfig env trace containerStates];
    eexists; (split; [done|]); (split; [|done]); by rewrite lookup_insert_eq.
Qed.

(** C1, on a schedule where the code departs from it.  A first request
    takes the lock and starts the build; a second one finds the lock held;
    the build ends and its
    deferred function reads [Queued] before the second request has written
    it, so it unlocks; then the second request writes [Queued].  The request
    was answered as queued, yet no further run follows it (one run in all),
    the lock is free and the flag is left set.  The next request to take the
    lock then runs the deploy twice. *)
Theorem queued_request_can_be_lost :
  let arrival := [HandlerTryLock; HandlerTryLock; BodyReturns; DeferredUnlock;
                  HandlerSetQueued] in
  let lost := mkSys (mkBuildConfig "secret" false true) 0 0 0 1 in
  exec (initial "secret") arrival = Some lost
  /\ idle lost = true
  /\ Queued (conf lost) = true
  /\ runs lost = 1%nat
  /\ exec lost [HandlerTryLock; BodyReturns; BodyReturns; DeferredUnlock]
     = Some (mkSys (mkBuildConfig "secret" false false) 0 0 0 3).
Proof. cbv zeta. repeat split. Qed.

End CoordinatorFacts.

(** ** Examples on the simulated runtime *)

Section Examples.
Import GoTime GoStrings Daemon Docker Main Api Sim.

(** Against C2 as it is worded: a paused instance idle for thirty
    seconds contributes an hour less thirty seconds, and nothing else
    contributes, yet the pass returns one minute; and a pass over an empty
    cache, where nothing contributes, returns one minute and not one hour. *)
Lemma delay_is_capped_at_one_minute :
  let w := world (cacheOf (usedAgo true (30 * Second))) ∅ quiet in
  contributions (visits w) = [Hour - 30 * Second]
  /\ (stopOldContainersJob w).1 = Minute
  /\ Minute < Hour - 30 * Second
  /\ contributions (visits (world ∅ ∅ quiet)) = []
  /\ (stopOldContainersJob (world ∅ ∅ quiet)).1 = Minute
  /\ Minute < Hour.
Proof. cbv zeta. repeat split; by vm_compute. Qed.

(** C3 at an instance never used, at noon of 1 November 2026. *)
Lemma never_used_is_due_witness :
  (visitor snake never (mkJobVars [] [] Minute) (world ∅ ∅ quiet)).1.2
  = mkJobVars [] [snake] Minute.
Proof.
  assert (Hclock : Hour <= (timeNow (env (world ∅ ∅ quiet))).1) by by vm_compute.
  destruct (never_used_is_due snake never (mkJobVars [] [] Minute) (world ∅ ∅ quiet)
              eq_refl eq_refl Hclock) as (_ & _ & _ & _ & _ & Hpause & _).
  exact (Hpause eq_refl).
Defined.

(** C4 at the four cases the spec lists: idle for 30 s and for 90 s when not
    paused, for 30 s and for two hours when paused. *)
Lemma visitor_classifies_witness :
  let w := world ∅ ∅ quiet in
  (visitor snake (usedAgo false (30 * Second)) (mkJobVars [] [] Hour) w).1.2
  = mkJobVars [] [] (30 * Second)
  /\ (visitor snake (usedAgo false (90 * Second)) (mkJobVars [] [] Hour) w).1.2
     = mkJobVars [] [snake] Hour
  /\ (visitor snake (usedAgo true (30 * Second)) (mkJobVars [] [] Hour) w).1.2
     = mkJobVars [] [] (Hour - 30 * Second)
  /\ (visitor snake (usedAgo true (2 * Hour)) (mkJobVars [] [] Hour) w).1.2
     = mkJobVars [snake] [] Hour.
Proof.
  cbv zeta. set (w := world ∅ ∅ quiet). set (v := mkJobVars [] [] Hour).
  split; [|split; [|split]].
  - destruct (visitor_classifies snake (usedAgo false (30 * Second)) v w)
      as (_ & _ & H & _).
    destruct H as [-> _]; [done | done | by vm_compute | by vm_compute].
  - destruct (visitor_classifies snake (usedAgo false (90 * Second)) v w)
      as (_ & _ & _ & H & _).
    destruct H as [-> _]; [done | done | by vm_compute | by vm_compute].
  - destruct (visitor_classifies snake (usedAgo true (30 * Second)) v w)
      as (_ & _ & _ & _ & H & _).
    destruct H as [-> _]; [done | done | by vm_compute | by vm_compute].
  - destruct (visitor_classifies snake (usedAgo true (2 * Hour)) v w)
      as (_ & _ & _ & _ & _ & H & _).
    destruct H as [-> _]; [done | done | by vm_compute | by vm_compute].
Defined.

(** Against C5 as it is worded: a ping whose signature does not
    verify, sent with another content type, is answered 400 by the check of
    the content type. *)
Lemma invalid_signature_answered_400 :
  let w := world ∅ registry quiet in
  checkSecret "m" "k" "sha256=00" = Some (ErrorOther "Signature invalid")
  /\ githubWebhookHandler (hook "ping" "sha256=00" "text/plain" "m") w
     = (mkReply 400 "Invalid Content-Type. Only json Supported", w).
Proof. cbv zeta. split; by vm_compute. Qed.

(** C5 at a ping with a wrong digest and the content type of GitHub. *)
Lemma invalid_signature_is_refused_witness :
  let w := world ∅ registry quiet in
  githubWebhookHandler (hook "ping" "sha256=00" "application/json" "m") w
  = (mkReply 401 "Access Denied: Signature invalid", w).
Proof.
  cbv zeta. set (w := world ∅ registry quiet).
  set (r := hook "ping" "sha256=00" "application/json" "m").
  assert (Hn : names r w "m" mainPush (mkBuildConfig "k" false false)).
  { repeat split; by vm_compute. }
  assert (Hsig : checkSecret "m" (Secret (mkBuildConfig "k" false false)) (signatureOf r)
                 = Some (ErrorOther "Signature invalid")) by by vm_compute.
  destruct (invalid_signature_is_refused r w "m" mainPush _ _ Hn Hsig) as (_ & H & _).
  apply H. split; by vm_compute.
Defined.

(** Against C6 as it is worded: a push to a tag of a private
    repository, validly signed, is answered 500. *)
Lemma signed_tag_push_to_private_answered_500 :
  let w := world ∅ registry quiet in
  checkSecret "v" "k" "sha256=6b76" = None
  /\ unmarshalPushRequest "v"
     = inr (mkPushRequest "refs/tags/v1" (mkRepository true "user/snake" "main"))
  /\ githubWebhookHandler (hook "push" "sha256=6b76" "application/json" "v") w
     = (mkReply 500 "Cannot Access Private Repos", w).
Proof. cbv zeta. repeat split; by vm_compute. Qed.

(** C6 at a signed push to the default branch while no build runs. *)
Lemma build_only_for_push_to_default_branch_witness :
  let w := world ∅ registry quiet in
  let done := (githubWebhookHandler (hook "push" "sha256=6b6d" "application/json" "m") w).2 in
  trace done = [EvGo "user/snake"]
  /\ buildConfig done = <["user/snake"%string := mkBuildConfig "k" true false]> registry.
Proof.
  cbv zeta. set (w := world ∅ registry quiet).
  set (r := hook "push" "sha256=6b6d" "application/json" "m").
  assert (Hn : names r w "m" mainPush (mkBuildConfig "k" false false)).
  { repeat split; by vm_compute. }
  assert (Hwf : wellFormed r) by (split; by vm_compute).
  assert (Hsig : checkSecret "m" (Secret (mkBuildConfig "k" false false)) (signatureOf r)
                 = None) by by vm_compute.
  destruct (build_only_for_push_to_default_branch r w "m" mainPush _ Hn Hwf Hsig)
    as (_ & _ & _ & _ & H & _).
  destruct H as (_ & _ & Ht & Hc); [done | done | by vm_compute |]. split; [exact Ht | exact Hc].
Defined.

(** C7 at a paused instance: a stop, and a start with its inspect. *)
Lemma write_operations_update_the_cache_witness :
  let w := world (cacheOf (usedAgo true (30 * Second))) ∅ quiet in
  containerStates (StopContainer snake w).2
  = <[snake := mkContainerState false false (Some (noon - 30 * Second)) "172.18.0.2"
                 (Some noon)]> (containerStates w)
  /\ exists resp result,
       decodeContainerState (Body resp) = inr result
       /\ containerStates (StartContainer snake w).2
          = <[snake := mkContainerState (State_Running result) (State_Paused result)
                         (Some (noon - 30 * Second)) (addressOf result) (Some noon)]>
              (containerStates w).
Proof.
  cbv zeta. set (w := world (cacheOf (usedAgo true (30 * Second))) ∅ quiet).
  destruct (write_operations_update_the_cache snake w (usedAgo true (30 * Second)) eq_refl)
    as (_ & _ & _ & Hstop & _ & _ & Hstart).
  split.
  - destruct (Hstop (StopContainer snake w).2) as [-> _]; [by vm_compute | done].
  - destruct (Hstart (StartContainer snake w).2) as (resp & result & _ & Hdec & -> & _);
      [by vm_compute|]. exists resp, result. split; [exact Hdec | reflexivity].
Defined.

(** Against C8 as it is worded: the listing taken before the build
    holds the ids [aaa] (under two tags) and [bbb]; the deploy succeeds and
    runs [docker rmi] on both.  Were [aaa] the id of the image just built (a
    build of unchanged sources gives the image the id it had), the claim would
    have [bbb] removed and [aaa] kept. *)
Lemma new_image_id_is_removed :
  let w := world (cacheOf zeroState) registry twoImages in
  (deployRun "user/snake" w).1 = Deployed
  /\ snapshotIds listing = ["aaa"; "aaa"; "bbb"]%string
  /\ filter isRmi (trace (deployRun "user/snake" w).2) = [rmi "aaa"; rmi "bbb"]
  /\ claimedRemovals "aaa" listing = ["bbb"%string].
Proof. cbv zeta. repeat split; by vm_compute. Qed.

(** C8 at the deploy above. *)
Lemma prune_removes_every_listed_id_witness :
  let w := world (cacheOf zeroState) registry twoImages in
  exists imagesRaw,
    NoDup (pruned (Split imagesRaw (ascii_of_N 10)) [])
    /\ forall id, In (rmi id) (skipn (length (trace w)) (trace (deployRun "user/snake" w).2))
                  <-> In id (snapshotIds imagesRaw).
Proof.
  cbv zeta. set (w := world (cacheOf zeroState) registry twoImages).
  assert (Hrun : deployRun "user/snake" w = (Deployed, (deployRun "user/snake" w).2))
    by by vm_compute.
  destruct (prune_removes_every_listed_id "user/snake" w _ Hrun)
    as (found & imagesRaw & repoDir & _ & _ & Hnd & _ & Hin).
  exists imagesRaw. split; [exact Hnd | exact Hin].
Defined.

(** Against C9 as it is worded: the clone fails, and the cached
    state of the container, never refreshed before, now holds what the
    opening inspect answered. *)
Lemma failed_build_refreshes_the_cache :
  let w := world (cacheOf zeroState) registry cloneFails in
  (deployRun "user/snake" w).1 = CouldNotCloneRepo
  /\ containerStates w !! snake = Some (mkContainerState false false None "" None)
  /\ containerStates (deployRun "user/snake" w).2 !! snake
     = Some (mkContainerState true false None "172.18.0.2" (Some noon)).
Proof. cbv zeta. repeat split; by vm_compute. Qed.

(** C9 at the failed clone above. *)
Lemma failed_build_leaves_the_container_witness :
  let w := world (cacheOf zeroState) registry cloneFails in
  exists repoDir,
    skipn (length (trace w)) (trace (deployRun "user/snake" w).2)
    = [inspectRequest snake; imagesCmd "user/snake"; EvMkdirTemp (scratchPattern "user/snake");
       cloneCmd "user/snake" repoDir; EvRemoveAll repoDir]
    /\ buildConfig (deployRun "user/snake" w).2 = registry.
Proof.
  cbv zeta. set (w := world (cacheOf zeroState) registry cloneFails).
  assert (Hrun : deployRun "user/snake" w
                 = (CouldNotCloneRepo, (deployRun "user/snake" w).2)) by by vm_compute.
  destruct (failed_build_leaves_the_container "user/snake" w _ _ Hrun) as [_ H].
  destruct (H (or_introl eq_refl)) as (repoDir & Hstarted & _ & _ & _ & Hconf & _).
  exists repoDir. split; [exact Hstarted | exact Hconf].
Defined.

(** C10 at an instance registered and never refreshed. *)
Lemma GetState_after_EnsureContainerRunning_witness :
  let w := world (cacheOf zeroState) ∅ quiet in
  exists st,
    GetState snake (EnsureContainerRunning snake w).2
    = ((st, None), (EnsureContainerRunning snake w).2).
Proof.
  cbv zeta. set (w := world (cacheOf zeroState) ∅ quiet).
  assert (Hrun : EnsureContainerRunning snake w = (None, (EnsureContainerRunning snake w).2))
    by by vm_compute.
  destruct (GetState_after_EnsureContainerRunning snake w _ Hrun) as (_ & st & _ & H & _).
  exists st. exact H.
Defined.

(** Two requests, the second one queued behind the first. *)
Lemma one_deploy_at_a_time_witness :
  (Coordinator.inBody
     (Coordinator.mkSys (mkBuildConfig "k" true true) 1 0 0 1) <= 1)%nat.
Proof.
  exact (proj1 (one_deploy_at_a_time "k"
                  [Coordinator.HandlerTryLock; Coordinator.HandlerTryLock;
                   Coordinator.HandlerSetQueued] _ eq_refl)).
Defined.

(** Three requests during one build. *)
Lemma queued_requests_run_once_more_witness :
  exists s1 s2,
    Coordinator.exec (Coordinator.mkSys (mkBuildConfig "k" true false) 1 0 0 1)
      (concat (repeat Coordinator.queuedRequest 3) ++ [Coordinator.BodyReturns]) = Some s1
    /\ Coordinator.runs s1 = 2%nat
    /\ Coordinator.exec s1 [Coordinator.BodyReturns; Coordinator.DeferredUnlock] = Some s2
    /\ Coordinator.idle s2 = true /\ Coordinator.runs s2 = 2%nat.
Proof.
  destruct (queued_requests_run_once_more 3
              (Coordinator.mkSys (mkBuildConfig "k" true false) 1 0 0 1)
              eq_refl eq_refl eq_refl (Nat.lt_0_succ 2))
    as (s1 & s2 & H1 & _ & _ & H2 & H3 & H4 & _ & H5).
  exists s1, s2. repeat split; assumption.
Defined.

End Examples.
